(** * Pairwise statistical comparisons: [perform_statistical_tests]

    A shallow embedding of [st_basic_multiple_stats.py] and the properties of
    its one algorithmic routine.

    - Cell values and p-values are IEEE binary64 numbers, modelled by the
      standard library's [spec_float] at precision 53 and exponent bound 1024.
      A missing cell is the NaN pandas stores for it.
    - [scipy.stats.ttest_ind] and [scipy.stats.mannwhitneyu] are library code:
      they are variables of the section that holds the routine.
    - The routine runs in a state and exception monad.  The state holds the
      frame the argument [data] refers to and the messages written to the
      Streamlit page. *)

From Stdlib Require Import ZArith QArith Lia Bool Ascii String DecimalString DecimalPos.
From Stdlib Require Import Floats.SpecFloat.
From stdpp Require Import base list sorting strings.

Local Open Scope Z_scope.
Local Open Scope string_scope.
Local Open Scope list_scope.

(** ** Binary64 numbers *)

Module Float64.

Definition prec : Z := 53.
Definition emax : Z := 1024.

Definition float : Type := spec_float.

(** A float is a binary64 when its mantissa and exponent are in canonical
    form and in range. *)
Definition is_binary64 (x : float) : bool := valid_binary prec emax x.

Definition is_nan (x : float) : bool :=
  match x with S754_nan => true | _ => false end.

Definition is_finite (x : float) : bool :=
  match x with S754_zero _ | S754_finite _ _ _ => true | _ => false end.

(** The rational a finite float denotes (0 for the others). *)
Definition dyadic (m : Z) (e : Z) : Q :=
  match e with
  | Zneg k => Qmake m (2 ^ k)
  | _ => inject_Z (m * 2 ^ e)
  end.

Definition to_Q (x : float) : Q :=
  match x with
  | S754_finite s m e => dyadic (if s then Zneg m else Zpos m) e
  | _ => 0%Q
  end.

(** [x] is numerically below the rational [q]: NaN is below nothing,
    minus infinity is below every rational. *)
Definition below (x : float) (q : Q) : Prop :=
  match x with
  | S754_nan => False
  | S754_infinity s => s = true
  | _ => (to_Q x < q)%Q
  end.

(** [x] is a finite real in the closed interval [0,1]. *)
Definition in_unit_interval (x : float) : Prop :=
  is_finite x = true /\ (0 <= to_Q x)%Q /\ (to_Q x <= 1)%Q.

(** Python's [x < y] on floats. *)
Definition lt (x y : float) : bool := SFltb x y.

(** The float of an integer literal. *)
Definition of_Z (n : Z) : float := binary_normalize prec emax n 0 false.

(** The float the literal [0.05] denotes:
    7205759403792794 * 2^-57 = 0.05000000000000000277... *)
Definition lit_0_05 : float := S754_finite false 7205759403792794 (-57).

Definition one : float := S754_finite false 4503599627370496 (-52).

End Float64.

Abbreviation float := Float64.float.

(** ** The format specification [.10f] *)

Module Format.

Definition digit_char (d : Z) : ascii :=
  ascii_of_nat (48 + Z.to_nat d).

(** [k] decimal digits of [n], most significant first, zero padded. *)
Fixpoint fixed_digits (k : nat) (n : Z) : string :=
  match k with
  | O => ""
  | S k' => fixed_digits k' (n / 10) +:+ String (digit_char (n mod 10)) ""
  end.

(** The decimal digits of a natural number, no leading zero. *)
Definition decimal (n : Z) : string :=
  NilEmpty.string_of_uint (N.to_uint (Z.to_N n)).

(** The integer nearest to [n / d], ties to the even one ([0 <= n], [0 < d]). *)
Definition round_half_even (n d : Z) : Z :=
  let q := n / d in
  match (2 * (n mod d) ?= d)%Z with
  | Lt => q
  | Gt => q + 1
  | Eq => if Z.even q then q else q + 1
  end.

(** [m * 2^e * 10^10] rounded to an integer. *)
Definition scaled (m : positive) (e : Z) : Z :=
  match e with
  | Zneg k => round_half_even (Zpos m * 10 ^ 10) (2 ^ Zpos k)
  | _ => Zpos m * 2 ^ e * 10 ^ 10
  end.

Definition sign_prefix (s : bool) : string := if s then "-" else "".

(** [f"{x:.10f}"] for a float [x]: the value correctly rounded to ten
    decimal places; the sign is kept on zeros; NaN and the infinities are
    spelled out. *)
Definition format_10f (x : float) : string :=
  match x with
  | S754_nan => "nan"
  | S754_infinity s => sign_prefix s +:+ "inf"
  | S754_zero s => sign_prefix s +:+ "0." +:+ fixed_digits 10 0
  | S754_finite s m e =>
      let n := scaled m e in
      sign_prefix s +:+ decimal (n / 10 ^ 10) +:+ "." +:+ fixed_digits 10 (n mod 10 ^ 10)
  end.

End Format.

(** ** Frames and series *)

Abbreviation Series := (list float).

(** A frame: its columns in order, each a label and the cells below it. *)
Abbreviation DataFrame := (list (string * Series)).

(** [data.columns] *)
Definition columns (data : DataFrame) : list string := data.*1.

(** [data[col]] for a label that names one column; [None] when no column
    has the label (pandas raises [KeyError]).  A label shared by several
    columns makes pandas return a sub-frame: the model covers frames with
    distinct labels, which is what a frame built from a dict has. *)
Fixpoint getitem (data : DataFrame) (col : string) : option Series :=
  match data with
  | [] => None
  | (name, cells) :: rest =>
      if String.eqb name col then Some cells else getitem rest col
  end.

(** [series.dropna()]: a new series without the missing cells. *)
Definition dropna (s : Series) : Series :=
  List.filter (fun x => negb (Float64.is_nan x)) s.

(** ** Runs: state and exceptions *)

Inductive exception : Type :=
  | UnboundLocalError (var : string)
  | IndexError
  | KeyError (key : string).

(** What the routine shows on the page. *)
Inductive advisory : Type :=
  | st_warning_msg (msg : string)
  | st_error_msg (msg : string).

Record world : Type := World {
  frame : DataFrame;        (* the object [data] refers to *)
  page : list advisory      (* messages shown so far, oldest first *)
}.

Inductive outcome (A : Type) : Type :=
  | Ret (a : A)
  | Raise (e : exception).
Arguments Ret {A} a.
Arguments Raise {A} e.

Definition M (A : Type) : Type := world -> outcome A * world.

#[export] Instance M_ret : MRet M := fun A a w => (Ret a, w).

#[export] Instance M_bind : MBind M := fun A B f c w =>
  match c w with
  | (Ret a, w') => f a w'
  | (Raise e, w') => (Raise e, w')
  end.

Definition raise {A : Type} (e : exception) : M A := fun w => (Raise e, w).

(** [st.warning(msg)] and [st.error(msg)] *)
Definition st_warning (msg : string) : M unit :=
  fun w => (Ret tt, World (frame w) (page w ++ [st_warning_msg msg])).

Definition st_error (msg : string) : M unit :=
  fun w => (Ret tt, World (frame w) (page w ++ [st_error_msg msg])).

(** [data.columns] and [data[col]], read from the frame in the state. *)
Definition data_columns : M (list string) :=
  fun w => (Ret (columns (frame w)), w).

Definition data_getitem (col : string) : M Series :=
  fun w => match getitem (frame w) col with
           | Some s => (Ret s, w)
           | None => (Raise (KeyError col), w)
           end.

(** [xs[i]] *)
Definition index {A : Type} (xs : list A) (i : nat) : M A :=
  match xs !! i with
  | Some x => mret x
  | None => raise IndexError
  end.

(** Reading a local variable that may not have been assigned yet. *)
Definition read_local {A : Type} (var : string) (v : option A) : M A :=
  match v with
  | Some x => mret x
  | None => raise (UnboundLocalError var)
  end.

(** [for x in xs: s = body x s] *)
Fixpoint for_each {A S : Type} (xs : list A) (body : A -> S -> M S) (s : S) : M S :=
  match xs with
  | [] => mret s
  | x :: rest => s' ← body x s; for_each rest body s'
  end.

(** [range(lo, hi)] *)
Definition range (lo hi : nat) : list nat := seq lo (hi - lo).

(** A computation leaves the frame alone and only adds messages to the
    page. *)
Definition frame_preserving {A : Type} (c : M A) : Prop :=
  forall w : world,
    frame (c w).2 = frame w /\ exists shown : list advisory, page (c w).2 = page w ++ shown.

(** ** The routine *)

(** One entry of [results]. *)
Record row : Type := Row {
  Comparison : string;
  p_value_field : string;     (* key ['p-value'] *)
  Significance : string
}.

(** What a call of a scipy test gives back: the p-value of the returned
    pair (the statistic is discarded by the caller), or an exception [e],
    kept as [str(e)]. *)
Inductive stat_result : Type :=
  | Pvalue (p : float)
  | Failure (str_e : string).

(** The local variables that live across iterations. *)
Record locals : Type := Locals {
  results : list row;
  p_value : option float
}.

Section PairwiseTester.

(** [stats.ttest_ind(a, b, equal_var=True)] *)
Variable ttest_ind : Series -> Series -> stat_result.
(** [stats.mannwhitneyu(a, b, alternative='two-sided')] *)
Variable mannwhitneyu : Series -> Series -> stat_result.

(** Lines 24-35: the selected test.  [Some l'] goes on to line 38 with
    locals [l']; [None] is [continue]. *)
Definition selected_test (test_type col1 col2 : string)
    (sample1 sample2 : Series) (l : locals) : M (option locals) :=
  if String.eqb test_type "ttest" then
    match ttest_ind sample1 sample2 with
    | Pvalue p => mret (Some (Locals (results l) (Some p)))
    | Failure e =>
        st_error ("Error in t-test between " +:+ col1 +:+ " and " +:+ col2
                  +:+ ": " +:+ e);;
        mret None
    end
  else if String.eqb test_type "mannwhitney" then
    match mannwhitneyu sample1 sample2 with
    | Pvalue p => mret (Some (Locals (results l) (Some p)))
    | Failure e =>
        st_error ("Error in Mann-Whitney U test between " +:+ col1 +:+ " and "
                  +:+ col2 +:+ ": " +:+ e);;
        mret None
    end
  else mret (Some l).

Definition significance_of (p : float) : string :=
  if Float64.lt p Float64.lit_0_05 then "sig" else "nonsig".

(** Lines 12-45: the body of the inner loop. *)
Definition loop_body (test_type : string) (cols : list string)
    (i j : nat) (l : locals) : M locals :=
  col1 ← index cols i;
  col2 ← index cols j;
  s1 ← data_getitem col1;
  let sample1 := dropna s1 in
  s2 ← data_getitem col2;
  let sample2 := dropna s2 in
  if (length sample1 <? 2)%nat || (length sample2 <? 2)%nat then
    st_warning ("Skipping " +:+ col1 +:+ " vs " +:+ col2
                +:+ " - not enough data points");;
    mret l
  else
    next ← selected_test test_type col1 col2 sample1 sample2 l;
    match next with
    | None => mret l
    | Some l' =>
        p ← read_local "p_value" (p_value l');
        let formatted_p := Format.format_10f p in
        let significance := significance_of p in
        mret (Locals
                (results l' ++ [Row (col1 +:+ " vs " +:+ col2) formatted_p significance])
                (p_value l'))
    end.

(** Lines 5-47. *)
Definition perform_statistical_tests (test_type : string) : M (list row) :=
  cols ← data_columns;
  l ← for_each (range 0 (length cols))
        (fun i => for_each (range (i + 1) (length cols))
                    (fun j => loop_body test_type cols i j))
        (Locals [] None);
  mret (results l).

End PairwiseTester.

(** A call on the frame [data], with [log] already on the page. *)
Definition call (ttest_ind mannwhitneyu : Series -> Series -> stat_result)
    (data : DataFrame) (test_type : string) (log : list advisory)
    : outcome (list row) * world :=
  perform_statistical_tests ttest_ind mannwhitneyu test_type (World data log).

(** ** Example data *)

Module Examples.

Definition ints (zs : list Z) : Series := List.map Float64.of_Z zs.
Definition nan : float := S754_nan.

(** The frame [main] starts from. *)
Definition df : DataFrame :=
  [ ("Sample1", (ints [1; 2; 3; 4; 5] ++ [nan] ++ ints [7])%list);
    ("Sample2", ints [2; 3; 4; 5; 6; 7; 8]);
    ("Sample3", ints [5; 6; 7; 8; 9; 10; 11]) ].

(** A stand-in for a scipy test: NaN when neither sample varies (the
    statistic is then 0/0), an exception on an empty sample, and a fixed
    p-value otherwise. *)
Definition constant (s : Series) : bool :=
  match s with
  | [] => true
  | x :: rest => forallb (fun y => SFeqb x y) rest
  end.

Definition stub_test (p : float) (a b : Series) : stat_result :=
  match a, b with
  | [], _ | _, [] => Failure "empty sample"
  | _, _ => if constant a && constant b then Pvalue nan else Pvalue p
  end.

(** A test that raises on samples of different sizes. *)
Definition same_size_test (p : float) (a b : Series) : stat_result :=
  if (length a =? length b)%nat then Pvalue p
  else Failure "unequal length arrays".

(** 0.01 as a binary64: 5764607523034235 * 2^-59. *)
Definition p_0_01 : float := S754_finite false 5764607523034235 (-59).

(** Two columns without variance. *)
Definition ab : DataFrame :=
  [ ("A", ints [1; 1; 1; 1]); ("B", ints [1; 1; 1; 1]) ].

(** A frame whose middle column has a single value. *)
Definition sparse : DataFrame :=
  [ ("X", ints [1; 2; 3]); ("Y", [nan; Float64.of_Z 5; nan]); ("Z", ints [4; 5; 6]) ].

Definition single : DataFrame := [ ("Only", ints [1; 2; 3]) ].

End Examples.

(** ** The run, pair by pair *)

(** The index pairs the two loops visit, in the order they visit them. *)
Definition pairs (n : nat) : list (nat * nat) :=
  flat_map (fun i => List.map (fun j => (i, j)) (range (i + 1) n)) (range 0 n).

(** Lexicographic order on index pairs. *)
Definition lex_lt (a b : nat * nat) : Prop :=
  (a.1 < b.1 \/ (a.1 = b.1 /\ a.2 < b.2))%nat.

(** The label and the cleaned sample of column [i]. *)
Definition label (data : DataFrame) (i : nat) : string :=
  default "" (columns data !! i).

Definition sample (data : DataFrame) (i : nat) : Series :=
  dropna (default [] (data.*2 !! i)).

Definition sufficient (data : DataFrame) (i j : nat) : bool :=
  negb ((length (sample data i) <? 2)%nat || (length (sample data j) <? 2)%nat).

Definition valid_test_type (test_type : string) : bool :=
  String.eqb test_type "ttest" || String.eqb test_type "mannwhitney".

Definition skip_notice (data : DataFrame) (i j : nat) : advisory :=
  st_warning_msg ("Skipping " +:+ label data i +:+ " vs " +:+ label data j
                  +:+ " - not enough data points").

Definition ttest_failure_notice (data : DataFrame) (i j : nat) (e : string) : advisory :=
  st_error_msg ("Error in t-test between " +:+ label data i +:+ " and "
                +:+ label data j +:+ ": " +:+ e).

Definition mannwhitney_failure_notice (data : DataFrame) (i j : nat) (e : string) : advisory :=
  st_error_msg ("Error in Mann-Whitney U test between " +:+ label data i +:+ " and "
                +:+ label data j +:+ ": " +:+ e).

Definition row_of (data : DataFrame) (c : nat * nat * float) : row :=
  let '(i, j, p) := c in
  Row (label data i +:+ " vs " +:+ label data j) (Format.format_10f p) (significance_of p).

(** What happens at one pair. *)
Inductive verdict : Type :=
  | Insufficient                 (* line 19: warned and skipped *)
  | Failed (notice : advisory)   (* the test raised: reported and skipped *)
  | Computed (p : float)         (* the test returned [p] *)
  | Unassigned.                  (* no branch of lines 24-35 was taken *)

Section Verdicts.

Variable ttest_ind : Series -> Series -> stat_result.
Variable mannwhitneyu : Series -> Series -> stat_result.

Definition verdict_of (test_type : string) (data : DataFrame) (i j : nat) : verdict :=
  if sufficient data i j then
    if String.eqb test_type "ttest" then
      match ttest_ind (sample data i) (sample data j) with
      | Pvalue p => Computed p
      | Failure e => Failed (ttest_failure_notice data i j e)
      end
    else if String.eqb test_type "mannwhitney" then
      match mannwhitneyu (sample data i) (sample data j) with
      | Pvalue p => Computed p
      | Failure e => Failed (mannwhitney_failure_notice data i j e)
      end
    else Unassigned
  else Insufficient.

(** The selected test returned the p-value [p] on the cleaned samples of
    columns [i] and [j]. *)
Definition test_returned (test_type : string) (data : DataFrame) (i j : nat)
    (p : float) : Prop :=
  (test_type = "ttest" /\ ttest_ind (sample data i) (sample data j) = Pvalue p) \/
  (test_type = "mannwhitney" /\ mannwhitneyu (sample data i) (sample data j) = Pvalue p).

(** The loops as a walk over a list of pairs. *)
Fixpoint walk (test_type : string) (data : DataFrame) (ps : list (nat * nat))
    (l : locals) (log : list advisory) : outcome locals * list advisory :=
  match ps with
  | [] => (Ret l, log)
  | (i, j) :: rest =>
      match verdict_of test_type data i j with
      | Insufficient => walk test_type data rest l (log ++ [skip_notice data i j])
      | Failed notice => walk test_type data rest l (log ++ [notice])
      | Computed p =>
          walk test_type data rest
            (Locals (results l ++ [row_of data (i, j, p)]) (Some p)) log
      | Unassigned =>
          match p_value l with
          | Some p =>
              walk test_type data rest
                (Locals (results l ++ [row_of data (i, j, p)]) (Some p)) log
          | None => (Raise (UnboundLocalError "p_value"), log)
          end
      end
  end.

(** The pairs of [ps] whose test returned, with the p-value it returned. *)
Definition computed_in (test_type : string) (data : DataFrame) (ps : list (nat * nat))
    : list (nat * nat * float) :=
  omap (fun ij => match verdict_of test_type data ij.1 ij.2 with
                  | Computed p => Some (ij, p)
                  | _ => None
                  end) ps.

(** The messages for the skipped pairs of [ps]. *)
Definition notices_in (test_type : string) (data : DataFrame) (ps : list (nat * nat))
    : list advisory :=
  omap (fun ij => match verdict_of test_type data ij.1 ij.2 with
                  | Insufficient => Some (skip_notice data ij.1 ij.2)
                  | Failed notice => Some notice
                  | _ => None
                  end) ps.

Definition computed (test_type : string) (data : DataFrame) : list (nat * nat * float) :=
  computed_in test_type data (pairs (length data)).

(** The table of a run that returns, and the messages it shows. *)
Definition table (test_type : string) (data : DataFrame) : list row :=
  row_of data <$> computed test_type data.

Definition notices (test_type : string) (data : DataFrame) : list advisory :=
  notices_in test_type data (pairs (length data)).

End Verdicts.

(** ** Reading a formatted p-value back *)

Module Parse.

Definition is_digit (c : ascii) : bool :=
  let n := nat_of_ascii c in (48 <=? n)%nat && (n <=? 57)%nat.

Fixpoint all_digits (s : string) : bool :=
  match s with
  | EmptyString => true
  | String c rest => is_digit c && all_digits rest
  end.

(** The number a string of digits spells. *)
Fixpoint digits_value (acc : Z) (s : string) : Z :=
  match s with
  | EmptyString => acc
  | String c rest => digits_value (10 * acc + (Z.of_nat (nat_of_ascii c) - 48)) rest
  end.

(** Splits at the first ['.']. *)
Fixpoint split_point (s : string) : option (string * string) :=
  match s with
  | EmptyString => None
  | String c rest =>
      if Ascii.eqb c "." then Some (EmptyString, rest)
      else match split_point rest with
           | Some (a, b) => Some (String c a, b)
           | None => None
           end
  end.

Definition strip_sign (s : string) : bool * string :=
  match s with
  | String "-" rest => (true, rest)
  | _ => (false, s)
  end.

(** A fixed-point decimal with exactly [k] digits after the point: an
    optional minus sign, one or more digits, a point, [k] digits. *)
Definition fixed_point (k : nat) (s : string) : bool :=
  match split_point (strip_sign s).2 with
  | Some (a, b) =>
      negb (String.length a =? 0)%nat && all_digits a
      && (String.length b =? k)%nat && all_digits b
  | None => false
  end.

(** The rational such a string denotes. *)
Definition value (s : string) : option Q :=
  let '(neg, body) := strip_sign s in
  match split_point body with
  | Some (a, b) =>
      if negb (String.length a =? 0)%nat && all_digits a && all_digits b then
        let n := digits_value 0 (a +:+ b) in
        Some (Qmake (if neg then - n else n) (Z.to_pos (10 ^ Z.of_nat (String.length b))))
      else None
  | None => None
  end.

End Parse.

(** ** The page script [main] *)

Module Page.

(** What the script puts on the page. *)
Inductive element : Type :=
  | Title (body : string)
  | Subheader (body : string)
  | Checkbox (label : string)
  | TextInput (label content : string)
  | DataEditor (data : DataFrame)
  | Radio (label : string) (shown_options : list string)
  | Dataframe (rows : list row)
  | Notice (a : advisory).

(** What the user does with the widgets during one run of the script. *)
Record session : Type := Session {
  rename_all : bool;                 (* the checkbox is ticked *)
  typed : string -> string;          (* content of the text input labelled [col] *)
  edited : DataFrame -> DataFrame;   (* the frame the data editor gives back *)
  picked : nat                       (* position of the radio option picked *)
}.


(** [df.columns = new_names], for as many names as there are columns. *)
Definition set_columns (new_names : list string) (df : DataFrame) : DataFrame :=
  zip new_names df.*2.


Definition options : list string := ["ttest"; "mannwhitney"].


(** [st.radio] gives the option picked, the first one when none is. *)
Definition radio (opts : list string) (pick : nat) : string :=
  match opts !! pick with
  | Some o => o
  | None => default "" (head opts)
  end.


Section Script.

Variable ttest_ind : Series -> Series -> stat_result.
Variable mannwhitneyu : Series -> Series -> stat_result.

(** Lines 71-79: the frame the data editor starts from, and the text
    inputs shown. *)
Definition renamed (u : session) (df : DataFrame) : DataFrame * list element :=
  if rename_all u then
    let new_names := typed u <$> columns df in
    (set_columns new_names df, (fun col => TextInput col (typed u col)) <$> columns df)
  else (df, []).


(** Line 87. *)
Definition test_type (u : session) : string := radio options (picked u).



End Script.


End Page.

(** * Properties *)

(** ** Loops *)

Section Loops.

Context {A S : Type}.

Lemma for_each_app (xs ys : list A) (body : A -> S -> M S) (s : S) (w : world) :
  for_each (xs ++ ys) body s w =
  match for_each xs body s w with
  | (Ret s', w') => for_each ys body s' w'
  | (Raise e, w') => (Raise e, w')
  end.
Proof.
  revert s w. induction xs as [|x xs IH]; intros s w; simpl.
  - reflexivity.
  - unfold mbind, M_bind. destruct (body x s w) as [[s'|e] w']; [apply IH | reflexivity].
Qed.

Lemma for_each_map {B : Type} (h : B -> A) (ys : list B) (body : A -> S -> M S)
    (s : S) (w : world) :
  for_each (List.map h ys) body s w = for_each ys (fun y => body (h y)) s w.
Proof.
  revert s w. induction ys as [|y ys IH]; intros s w; simpl; [reflexivity|].
  unfold mbind, M_bind. destruct (body (h y) s w) as [[s'|e] w']; [apply IH | reflexivity].
Qed.

Lemma for_each_flat_map {B : Type} (f : B -> list A) (ys : list B)
    (body : A -> S -> M S) (s : S) (w : world) :
  for_each (flat_map f ys) body s w =
  for_each ys (fun y => for_each (f y) body) s w.
Proof.
  revert s w. induction ys as [|y ys IH]; intros s w; simpl; [reflexivity|].
  rewrite for_each_app. unfold mbind, M_bind.
  destruct (for_each (f y) body s w) as [[s'|e] w']; [apply IH | reflexivity].
Qed.

End Loops.

(** The two nested loops visit [pairs n]. *)
Lemma nested_loops_pairs {S : Type} (n : nat) (body : nat -> nat -> S -> M S)
    (s : S) (w : world) :
  for_each (range 0 n) (fun i => for_each (range (i + 1) n) (fun j => body i j)) s w =
  for_each (pairs n) (fun ij => body ij.1 ij.2) s w.
Proof.
  unfold pairs. rewrite for_each_flat_map.
  generalize (range 0 n) as ks. intros ks. revert s w.
  induction ks as [|i ks IH]; intros s w; simpl; [reflexivity|].
  unfold mbind, M_bind. rewrite for_each_map. simpl.
  destruct (for_each (range (i + 1) n) _ s w) as [[s'|e] w']; [apply IH | reflexivity].
Qed.

(** ** The enumeration *)

Lemma elem_of_range (lo hi k : nat) : k ∈ range lo hi <-> (lo <= k < hi)%nat.
Proof. unfold range. rewrite elem_of_seq. lia. Qed.

Lemma elem_of_pairs (n i j : nat) : (i, j) ∈ pairs n <-> (i < j < n)%nat.
Proof.
  unfold pairs. rewrite list_elem_of_In, in_flat_map. split.
  - intros (k & Hk & Hij). apply in_map_iff in Hij as (j' & Heq & Hj').
    inversion Heq; subst. apply list_elem_of_In, elem_of_range in Hk, Hj'. lia.
  - intros H. exists i. split.
    + apply list_elem_of_In, elem_of_range. lia.
    + apply in_map_iff. exists j. split; [reflexivity|].
      apply list_elem_of_In, elem_of_range. lia.
Qed.

Lemma pairs_bounds (n : nat) : Forall (fun ij => (ij.1 < ij.2 < n)%nat) (pairs n).
Proof. apply Forall_forall. intros [i j] H. apply elem_of_pairs in H. exact H. Qed.

(** ** One iteration *)

Lemma getitem_lookup (data : DataFrame) (i : nat) (c : string) (s : Series) :
  NoDup (columns data) -> data !! i = Some (c, s) -> getitem data c = Some s.
Proof.
  revert i. induction data as [|[name cells] rest IH]; intros i Hnd Hi.
  - discriminate.
  - unfold columns in Hnd. simpl in Hnd. apply NoDup_cons in Hnd as [Hfresh Hnd].
    destruct i as [|i]; simpl in *.
    + inversion Hi; subst. now rewrite String.eqb_refl.
    + destruct (String.eqb name c) eqn:E.
      * apply String.eqb_eq in E. subst. exfalso. apply Hfresh.
        apply list_elem_of_fmap. exists (c, s). split; [reflexivity|].
        apply list_elem_of_lookup. eauto.
      * eapply IH; eauto.
Qed.

Lemma label_lookup (data : DataFrame) (i : nat) (c : string) (s : Series) :
  data !! i = Some (c, s) -> columns data !! i = Some c /\ label data i = c /\ sample data i = dropna s.
Proof.
  intros H. unfold label, sample, columns. rewrite !list_lookup_fmap, H. auto.
Qed.

Section Iteration.

Variable ttest_ind : Series -> Series -> stat_result.
Variable mannwhitneyu : Series -> Series -> stat_result.

Lemma loop_body_verdict (test_type : string) (data : DataFrame) (i j : nat)
    (l : locals) (log : list advisory) :
  NoDup (columns data) -> (i < length data)%nat -> (j < length data)%nat ->
  loop_body ttest_ind mannwhitneyu test_type (columns data) i j l (World data log) =
  match verdict_of ttest_ind mannwhitneyu test_type data i j with
  | Insufficient => (Ret l, World data (log ++ [skip_notice data i j]))
  | Failed notice => (Ret l, World data (log ++ [notice]))
  | Computed p =>
      (Ret (Locals (results l ++ [row_of data (i, j, p)]) (Some p)), World data log)
  | Unassigned =>
      match p_value l with
      | Some p =>
          (Ret (Locals (results l ++ [row_of data (i, j, p)]) (Some p)), World data log)
      | None => (Raise (UnboundLocalError "p_value"), World data log)
      end
  end.
Proof.
  intros Hnd Hi Hj.
  destruct (lookup_lt_is_Some_2 data i Hi) as [[c1 s1] H1].
  destruct (lookup_lt_is_Some_2 data j Hj) as [[c2 s2] H2].
  pose proof (getitem_lookup _ _ _ _ Hnd H1) as G1.
  pose proof (getitem_lookup _ _ _ _ Hnd H2) as G2.
  destruct (label_lookup _ _ _ _ H1) as (C1 & L1 & S1).
  destruct (label_lookup _ _ _ _ H2) as (C2 & L2 & S2).
  unfold verdict_of, sufficient, skip_notice, ttest_failure_notice,
    mannwhitney_failure_notice, row_of.
  rewrite L1, L2, S1, S2.
  unfold loop_body, index. rewrite C1, C2.
  unfold mbind, M_bind, mret, M_ret, data_getitem. simpl.
  rewrite G1. simpl. rewrite G2. simpl.
  destruct ((length (dropna s1) <? 2)%nat || (length (dropna s2) <? 2)%nat); simpl.
  - reflexivity.
  - unfold selected_test.
    destruct (String.eqb test_type "ttest").
    + destruct (ttest_ind (dropna s1) (dropna s2)); reflexivity.
    + destruct (String.eqb test_type "mannwhitney").
      * destruct (mannwhitneyu (dropna s1) (dropna s2)); reflexivity.
      * simpl. destruct l as [rs [p|]]; reflexivity.
Qed.

(** The call is the walk over [pairs]. *)
Lemma for_each_walk (test_type : string) (data : DataFrame) (ps : list (nat * nat))
    (l : locals) (log : list advisory) :
  NoDup (columns data) ->
  Forall (fun ij => (ij.1 < ij.2 < length data)%nat) ps ->
  for_each ps (fun ij => loop_body ttest_ind mannwhitneyu test_type (columns data) ij.1 ij.2)
    l (World data log) =
  let '(o, log') := walk ttest_ind mannwhitneyu test_type data ps l log in
  (o, World data log').
Proof.
  intros Hnd Hps. revert l log.
  induction Hps as [|[i j] ps Hij Hps IH]; intros l log; simpl; [reflexivity|].
  simpl in Hij. unfold mbind, M_bind.
  rewrite loop_body_verdict by (auto; lia).
  destruct (verdict_of _ _ _ _ _ _) as [|notice|p|]; try apply IH.
  destruct (p_value l); [apply IH | reflexivity].
Qed.

Lemma call_walk (test_type : string) (data : DataFrame) (log : list advisory) :
  NoDup (columns data) ->
  call ttest_ind mannwhitneyu data test_type log =
  let '(o, log') :=
    walk ttest_ind mannwhitneyu test_type data (pairs (length data)) (Locals [] None) log in
  (match o with Ret l => Ret (results l) | Raise e => Raise e end, World data log').
Proof.
  intros Hnd. unfold call, perform_statistical_tests.
  unfold mbind at 1. unfold M_bind at 1. unfold data_columns. simpl.
  unfold mbind at 1. unfold M_bind at 1.
  rewrite nested_loops_pairs.
  assert (length (columns data) = length data) as -> by (unfold columns; apply length_fmap).
  rewrite for_each_walk by (auto using pairs_bounds).
  destruct (walk _ _ _ _ _ _ _) as [[l|e] log']; reflexivity.
Qed.

End Iteration.

(** ** The whole run *)

Section Run.

Variable ttest_ind : Series -> Series -> stat_result.
Variable mannwhitneyu : Series -> Series -> stat_result.

Lemma verdict_insufficient (test_type : string) (data : DataFrame) (i j : nat) :
  sufficient data i j = false ->
  verdict_of ttest_ind mannwhitneyu test_type data i j = Insufficient.
Proof. intros H. unfold verdict_of. now rewrite H. Qed.

Lemma verdict_unknown_test (test_type : string) (data : DataFrame) (i j : nat) :
  valid_test_type test_type = false -> sufficient data i j = true ->
  verdict_of ttest_ind mannwhitneyu test_type data i j = Unassigned.
Proof.
  unfold valid_test_type, verdict_of. intros Hv Hs. rewrite Hs.
  apply orb_false_iff in Hv as [-> ->]. reflexivity.
Qed.

Lemma verdict_known_test (test_type : string) (data : DataFrame) (i j : nat) :
  valid_test_type test_type = true ->
  verdict_of ttest_ind mannwhitneyu test_type data i j <> Unassigned.
Proof.
  unfold valid_test_type, verdict_of. intros Hv.
  destruct (sufficient data i j); [|discriminate].
  destruct (String.eqb test_type "ttest").
  - destruct (ttest_ind _ _); discriminate.
  - simpl in Hv. rewrite Hv. destruct (mannwhitneyu _ _); discriminate.
Qed.

(** A computed p-value is what the selected test returned on the two
    cleaned samples, both of which have two values or more. *)
Lemma verdict_computed (test_type : string) (data : DataFrame) (i j : nat) (p : float) :
  verdict_of ttest_ind mannwhitneyu test_type data i j = Computed p ->
  sufficient data i j = true /\
  ((test_type = "ttest" /\ ttest_ind (sample data i) (sample data j) = Pvalue p) \/
   (test_type = "mannwhitney" /\ mannwhitneyu (sample data i) (sample data j) = Pvalue p)).
Proof.
  unfold verdict_of. destruct (sufficient data i j); [|discriminate].
  intros H. split; [reflexivity|].
  destruct (String.eqb test_type "ttest") eqn:E1.
  - apply String.eqb_eq in E1. left. split; [assumption|].
    destruct (ttest_ind _ _); congruence.
  - destruct (String.eqb test_type "mannwhitney") eqn:E2; [|discriminate].
    apply String.eqb_eq in E2. right. split; [assumption|].
    destruct (mannwhitneyu _ _); congruence.
Qed.

Lemma verdict_computed_valid (test_type : string) (data : DataFrame) (i j : nat) (p : float) :
  verdict_of ttest_ind mannwhitneyu test_type data i j = Computed p ->
  valid_test_type test_type = true.
Proof.
  intros H. apply verdict_computed in H as [_ [[-> _]|[-> _]]]; reflexivity.
Qed.

Lemma computed_in_cons (test_type : string) (data : DataFrame) (i j : nat)
    (ps : list (nat * nat)) :
  computed_in ttest_ind mannwhitneyu test_type data ((i, j) :: ps) =
  match verdict_of ttest_ind mannwhitneyu test_type data i j with
  | Computed p => (i, j, p) :: computed_in ttest_ind mannwhitneyu test_type data ps
  | _ => computed_in ttest_ind mannwhitneyu test_type data ps
  end.
Proof.
  unfold computed_in. simpl. now destruct (verdict_of _ _ _ _ _ _).
Qed.

Lemma notices_in_cons (test_type : string) (data : DataFrame) (i j : nat)
    (ps : list (nat * nat)) :
  notices_in ttest_ind mannwhitneyu test_type data ((i, j) :: ps) =
  match verdict_of ttest_ind mannwhitneyu test_type data i j with
  | Insufficient =>
      skip_notice data i j :: notices_in ttest_ind mannwhitneyu test_type data ps
  | Failed notice => notice :: notices_in ttest_ind mannwhitneyu test_type data ps
  | _ => notices_in ttest_ind mannwhitneyu test_type data ps
  end.
Proof.
  unfold notices_in. simpl. now destruct (verdict_of _ _ _ _ _ _).
Qed.

(** With a known test the walk goes through every pair. *)
Lemma walk_known_test (test_type : string) (data : DataFrame) (ps : list (nat * nat))
    (l : locals) (log : list advisory) :
  valid_test_type test_type = true ->
  exists pv,
    walk ttest_ind mannwhitneyu test_type data ps l log =
    (Ret (Locals (results l ++ (row_of data <$> computed_in ttest_ind mannwhitneyu test_type data ps)) pv),
     log ++ notices_in ttest_ind mannwhitneyu test_type data ps).
Proof.
  intros Hv. revert l log.
  induction ps as [|[i j] ps IH]; intros l log.
  - exists (p_value l). simpl. rewrite !app_nil_r. now destruct l.
  - cbn [walk]. rewrite computed_in_cons, notices_in_cons.
    pose proof (verdict_known_test test_type data i j Hv) as Hk.
    destruct (verdict_of _ _ _ _ _ _) as [|notice|p|]; [| | |congruence].
    + destruct (IH l (log ++ [skip_notice data i j])) as [pv ->].
      exists pv. now rewrite <- app_assoc.
    + destruct (IH l (log ++ [notice])) as [pv ->].
      exists pv. now rewrite <- app_assoc.
    + destruct (IH (Locals (results l ++ [row_of data (i, j, p)]) (Some p)) log) as [pv ->].
      exists pv. simpl. now rewrite <- app_assoc.
Qed.

(** A walk that returns has met no unassigned p-value. *)
Lemma walk_returns (test_type : string) (data : DataFrame) (ps : list (nat * nat))
    (l l' : locals) (log log' : list advisory) :
  valid_test_type test_type = true \/ p_value l = None ->
  walk ttest_ind mannwhitneyu test_type data ps l log = (Ret l', log') ->
  results l' = results l ++ (row_of data <$> computed_in ttest_ind mannwhitneyu test_type data ps)
  /\ log' = log ++ notices_in ttest_ind mannwhitneyu test_type data ps.
Proof.
  revert l log. induction ps as [|[i j] ps IH]; intros l log Hinv H.
  - simpl in *. inversion H; subst. now rewrite !app_nil_r.
  - cbn [walk] in H. rewrite computed_in_cons, notices_in_cons.
    destruct (verdict_of _ _ _ _ _ _) as [|notice|p|] eqn:E.
    + apply IH in H as [-> ->]; [|assumption]. now rewrite <- app_assoc.
    + apply IH in H as [-> ->]; [|assumption]. now rewrite <- app_assoc.
    + apply IH in H as [-> ->].
      * simpl. now rewrite <- app_assoc.
      * left. eapply verdict_computed_valid; eassumption.
    + destruct Hinv as [Hv|Hn].
      * exfalso. eapply verdict_known_test; eassumption.
      * rewrite Hn in H. discriminate.
Qed.

(** With an unknown test the walk passes the pairs that are short of data
    and stops at the first one that is not. *)
Lemma walk_unknown_test_skips (test_type : string) (data : DataFrame)
    (pre rest : list (nat * nat)) (l : locals) (log : list advisory) :
  Forall (fun ij => sufficient data ij.1 ij.2 = false) pre ->
  walk ttest_ind mannwhitneyu test_type data (pre ++ rest) l log =
  walk ttest_ind mannwhitneyu test_type data rest l
    (log ++ ((fun ij => skip_notice data ij.1 ij.2) <$> pre)).
Proof.
  intros Hpre. revert log. induction Hpre as [|[i j] pre Hij Hpre IH]; intros log; simpl.
  - now rewrite app_nil_r.
  - rewrite verdict_insufficient by exact Hij. rewrite IH. now rewrite <- app_assoc.
Qed.

(** *** Closed forms of a call *)

Lemma call_known_test (test_type : string) (data : DataFrame) (log : list advisory) :
  NoDup (columns data) -> valid_test_type test_type = true ->
  call ttest_ind mannwhitneyu data test_type log =
  (Ret (table ttest_ind mannwhitneyu test_type data),
   World data (log ++ notices ttest_ind mannwhitneyu test_type data)).
Proof.
  intros Hnd Hv. rewrite call_walk by assumption.
  destruct (walk_known_test test_type data (pairs (length data)) (Locals [] None) log Hv)
    as [pv ->].
  reflexivity.
Qed.

Lemma call_returns (test_type : string) (data : DataFrame) (log : list advisory)
    (tbl : list row) (w' : world) :
  NoDup (columns data) ->
  call ttest_ind mannwhitneyu data test_type log = (Ret tbl, w') ->
  tbl = table ttest_ind mannwhitneyu test_type data /\
  w' = World data (log ++ notices ttest_ind mannwhitneyu test_type data).
Proof.
  intros Hnd. rewrite call_walk by assumption.
  destruct (walk _ _ _ _ _ _ _) as [[l'|e] log'] eqn:E; [|discriminate].
  intros H. inversion H; subst.
  apply walk_returns in E as [-> ->]; [|now right]. split; reflexivity.
Qed.

Lemma call_unknown_test (test_type : string) (data : DataFrame) (log : list advisory)
    (pre post : list (nat * nat)) (i j : nat) :
  NoDup (columns data) -> valid_test_type test_type = false ->
  pairs (length data) = pre ++ (i, j) :: post ->
  Forall (fun ij => sufficient data ij.1 ij.2 = false) pre ->
  sufficient data i j = true ->
  call ttest_ind mannwhitneyu data test_type log =
  (Raise (UnboundLocalError "p_value"),
   World data (log ++ ((fun ij => skip_notice data ij.1 ij.2) <$> pre))).
Proof.
  intros Hnd Hv Hsplit Hpre Hij. rewrite call_walk by assumption.
  rewrite Hsplit, walk_unknown_test_skips by assumption. simpl.
  rewrite verdict_unknown_test by assumption. reflexivity.
Qed.

(** *** The computed pairs *)

Lemma elem_of_computed_in (test_type : string) (data : DataFrame) (ps : list (nat * nat))
    (i j : nat) (p : float) :
  (i, j, p) ∈ computed_in ttest_ind mannwhitneyu test_type data ps <->
  (i, j) ∈ ps /\ verdict_of ttest_ind mannwhitneyu test_type data i j = Computed p.
Proof.
  unfold computed_in. rewrite list_elem_of_omap. split.
  - intros ([i' j'] & Hin & H). simpl in H.
    destruct (verdict_of _ _ _ _ _ _) eqn:E; inversion H; subst. auto.
  - intros [Hin E]. exists (i, j). split; [assumption|]. simpl. now rewrite E.
Qed.

Lemma computed_in_sublist (test_type : string) (data : DataFrame) (ps : list (nat * nat)) :
  (computed_in ttest_ind mannwhitneyu test_type data ps).*1 `sublist_of` ps.
Proof.
  induction ps as [|[i j] ps IH].
  - constructor.
  - rewrite computed_in_cons.
    destruct (verdict_of _ _ _ _ _ _); simpl; try (now apply sublist_cons).
    now apply sublist_skip.
Qed.

End Run.

(** ** Binary64 comparison with the threshold *)

Module Float64Facts.

Import Float64.

Lemma digits2_pos_bounds (m : positive) :
  2 ^ (Zpos (digits2_pos m) - 1) <= Zpos m < 2 ^ Zpos (digits2_pos m).
Proof.
  induction m as [m IH|m IH|]; simpl digits2_pos.
  - rewrite Pos2Z.inj_succ. replace (Z.succ (Zpos (digits2_pos m)) - 1) with
      (Z.succ (Zpos (digits2_pos m) - 1)) by lia.
    rewrite !Z.pow_succ_r by lia. lia.
  - rewrite Pos2Z.inj_succ. replace (Z.succ (Zpos (digits2_pos m)) - 1) with
      (Z.succ (Zpos (digits2_pos m) - 1)) by lia.
    rewrite !Z.pow_succ_r by lia. lia.
  - simpl. lia.
Qed.

(** The mantissa of a binary64 has at most 53 bits, and exactly 53 above
    the smallest exponent. *)
Lemma binary64_mantissa (m : positive) (e : Z) :
  bounded prec emax m e = true ->
  Zpos m < 2 ^ 53 /\ (-1074 < e -> 2 ^ 52 <= Zpos m).
Proof.
  unfold bounded, canonical_mantissa, fexp, SpecFloat.emin, prec, emax.
  intros H. apply andb_true_iff in H as [H _]. apply Z.eqb_eq in H.
  pose proof (digits2_pos_bounds m) as [Hlo Hhi].
  set (d := Zpos (digits2_pos m)) in *.
  assert (0 < d) by (unfold d; lia).
  split.
  - assert (d <= 53) by lia.
    eapply Z.lt_le_trans; [exact Hhi|]. apply Z.pow_le_mono_r; lia.
  - intros He. assert (d = 53) as Hd by lia.
    rewrite Hd in Hlo. exact Hlo.
Qed.

Lemma dyadic_negative (m : positive) (e : Z) : (dyadic (Zneg m) e < 0)%Q.
Proof.
  unfold dyadic. destruct e as [|k|k]; unfold Qlt, inject_Z; simpl; lia.
Qed.

Lemma dyadic_negative_below (m : positive) (e : Z) (q : Q) :
  (0 < q)%Q -> (dyadic (Zneg m) e < q)%Q.
Proof.
  intros Hq. apply Qlt_trans with (y := 0%Q); [apply dyadic_negative | exact Hq].
Qed.


Lemma compare_cont_Z (p q : positive) :
  PosDef.Pos.compare_cont Eq p q = (Z.pos p ?= Z.pos q)%Z.
Proof. reflexivity. Qed.

Lemma pow2_values :
  2 ^ 52 = 4503599627370496 /\ 2 ^ 53 = 9007199254740992 /\
  2 ^ 56 = 72057594037927936 /\ 2 ^ 57 = 144115188075855872 /\
  2 ^ 58 = 288230376151711744.
Proof. vm_compute. repeat split. Qed.

Lemma lt_0_05_below (x : float) :
  is_binary64 x = true -> (lt x lit_0_05 = true <-> below x (1 # 20)).
Proof.
  intros Hx. destruct x as [s|s|  |s m e]; unfold lt, SFltb, lit_0_05, below.
  - simpl. split; [intros _; reflexivity | reflexivity].
  - simpl. destruct s; split; congruence.
  - simpl. split; [discriminate | contradiction].
  - destruct s.
    + cbn [SFcompare to_Q]. split; [intros _ | reflexivity]. now apply dyadic_negative_below.
    + unfold is_binary64 in Hx. cbn [valid_binary] in Hx.
      apply binary64_mantissa in Hx as [Hhi Hlo].
      cbn [SFcompare to_Q].
      destruct pow2_values as (P52 & P53 & P56 & P57 & P58).
      rewrite P53 in Hhi. rewrite P52 in Hlo.
      destruct (Z.compare_spec e (-57)) as [He|He|He].
      * subst e. unfold Qlt, dyadic. cbn [Qnum Qden].
        rewrite compare_cont_Z.
        rewrite Pos2Z.inj_pow, P57.
        destruct (Z.compare_spec (Zpos m) 7205759403792794) as [Hm|Hm|Hm];
          split; try discriminate; try reflexivity; lia.
      * split; [intros _ | reflexivity].
        destruct e as [|k|k]; try lia.
        unfold Qlt, dyadic; cbn [Qnum Qden]. rewrite Pos2Z.inj_pow.
        assert (2 ^ 58 <= 2 ^ Zpos k) by (apply Z.pow_le_mono_r; lia).
        rewrite P58 in *. lia.
      * split; [discriminate|]. intros Hq. exfalso.
        assert (-1074 < e) as Hm by lia. specialize (Hlo Hm).
        destruct e as [|k|k].
        -- unfold Qlt, dyadic, inject_Z in Hq; cbn [Qnum Qden] in Hq.
           rewrite Z.pow_0_r in Hq. lia.
        -- unfold Qlt, dyadic, inject_Z in Hq;  cbn [Qnum Qden] in Hq.
           assert (0 < 2 ^ Zpos k) by (apply Z.pow_pos_nonneg; lia). nia.
        -- unfold Qlt, dyadic in Hq; cbn [Qnum Qden] in Hq. rewrite Pos2Z.inj_pow in Hq.
           assert (2 ^ Zpos k <= 2 ^ 56) by (apply Z.pow_le_mono_r; lia).
           rewrite P56 in *. lia.
Qed.
End Float64Facts.

(** ** Formatting and reading back *)

Module FormatFacts.

Import Format Parse.

Lemma length_app_string (a b : string) :
  String.length (a +:+ b) = (String.length a + String.length b)%nat.
Proof. induction a as [|c a IH]; simpl; [reflexivity | now rewrite IH]. Qed.

Lemma all_digits_app (a b : string) :
  all_digits (a +:+ b) = all_digits a && all_digits b.
Proof.
  induction a as [|c a IH]; simpl; [reflexivity|].
  rewrite IH. now rewrite andb_assoc.
Qed.

Lemma digits_value_app (a b : string) (acc : Z) :
  digits_value acc (a +:+ b) = digits_value (digits_value acc a) b.
Proof. revert acc. induction a as [|c a IH]; intros acc; simpl; [reflexivity | apply IH]. Qed.

Lemma digit_char_spec (d : Z) :
  0 <= d < 10 ->
  is_digit (digit_char d) = true /\ Z.of_nat (nat_of_ascii (digit_char d)) - 48 = d.
Proof.
  intros H.
  assert (d = 0 \/ d = 1 \/ d = 2 \/ d = 3 \/ d = 4 \/ d = 5 \/ d = 6 \/ d = 7
          \/ d = 8 \/ d = 9) as Hd by lia.
  repeat (destruct Hd as [->|Hd]; [split; reflexivity|]). subst. split; reflexivity.
Qed.

Lemma fixed_digits_length (k : nat) (n : Z) : String.length (fixed_digits k n) = k.
Proof.
  revert n. induction k as [|k IH]; intros n; simpl; [reflexivity|].
  rewrite length_app_string, IH. simpl. lia.
Qed.

Lemma fixed_digits_all_digits (k : nat) (n : Z) : all_digits (fixed_digits k n) = true.
Proof.
  revert n. induction k as [|k IH]; intros n; cbn [fixed_digits]; [reflexivity|].
  rewrite all_digits_app, IH. cbn [all_digits andb].
  destruct (digit_char_spec (n mod 10)) as [-> _]; [|reflexivity].
  apply Z.mod_pos_bound. lia.
Qed.

Lemma fixed_digits_value (k : nat) (n acc : Z) :
  digits_value acc (fixed_digits k n) = acc * 10 ^ Z.of_nat k + n mod 10 ^ Z.of_nat k.
Proof.
  revert n acc. induction k as [|k IH]; intros n acc.
  - simpl. rewrite Z.mod_1_r. lia.
  - cbn [fixed_digits]. rewrite digits_value_app, IH. cbn [digits_value].
    destruct (digit_char_spec (n mod 10)) as [_ ->]; [apply Z.mod_pos_bound; lia|].
    rewrite Nat2Z.inj_succ, Z.pow_succ_r by lia.
    assert (0 < 10 ^ Z.of_nat k) by (apply Z.pow_pos_nonneg; lia).
    rewrite (Z.rem_mul_r n 10 (10 ^ Z.of_nat k)) by lia. lia.
Qed.

Lemma round_half_even_bounds (n d : Z) :
  0 <= n -> 0 < d -> n / d <= round_half_even n d <= n / d + 1.
Proof.
  intros Hn Hd. unfold round_half_even.
  destruct (2 * (n mod d) ?= d)%Z; [destruct (Z.even (n / d))|..]; lia.
Qed.

(** A value of at most 1 is rendered as at most 10^10 units of the last place. *)
Lemma scaled_unit_interval (m : positive) (e : Z) :
  (Float64.dyadic (Zpos m) e <= 1)%Q -> 0 <= scaled m e <= 10 ^ 10.
Proof.
  unfold Float64.dyadic, scaled. destruct e as [|k|k]; unfold Qle, inject_Z; cbn [Qnum Qden].
  - rewrite Z.pow_0_r. lia.
  - intros H. assert (0 < 2 ^ Zpos k) by (apply Z.pow_pos_nonneg; lia).
    assert (Zpos m * 2 ^ Zpos k = 1) as -> by nia. lia.
  - rewrite Pos2Z.inj_pow. intros H.
    assert (0 < 2 ^ Zpos k) as Hd by (apply Z.pow_pos_nonneg; lia).
    assert (0 <= Zpos m * 10 ^ 10) as Hn by lia.
    pose proof (round_half_even_bounds _ _ Hn Hd) as [Hlo Hhi].
    assert (0 <= Zpos m * 10 ^ 10 / 2 ^ Zpos k) by (apply Z.div_pos; lia).
    split; [lia|].
    destruct (Z.eq_dec (Zpos m) (2 ^ Zpos k)) as [Heq|Hne].
    + unfold round_half_even. rewrite Heq.
      rewrite (Z.mul_comm (2 ^ Zpos k)), Z.mod_mul, Z.div_mul by lia.
      assert ((2 * 0 ?= 2 ^ Zpos k)%Z = Lt) as -> by (apply Z.compare_lt_iff; lia).
      lia.
    + assert (Zpos m * 10 ^ 10 / 2 ^ Zpos k < 10 ^ 10); [|lia].
      apply Z.div_lt_upper_bound; [lia|].
      assert (Zpos m < 2 ^ Zpos k) by lia. nia.
Qed.

Lemma decimal_0 : decimal 0 = "0".
Proof. reflexivity. Qed.

Lemma fixed_point_below_one (k : nat) (fd : string) :
  fixed_point k ("0." +:+ fd) = (String.length fd =? k)%nat && all_digits fd.
Proof. reflexivity. Qed.

Lemma value_below_one (fd : string) :
  all_digits fd = true ->
  value ("0." +:+ fd) =
  Some (Qmake (digits_value 0 fd) (Z.to_pos (10 ^ Z.of_nat (String.length fd)))).
Proof.
  intros H. unfold value. simpl.
  change ("" +:+ "" +:+ fd) with fd. change ("" +:+ fd) with fd.
  now rewrite H.
Qed.

(** The rendering of a p-value in [0,1] is a fixed-point decimal with ten
    digits after the point that reads back as a number in [0,1]. *)
Lemma format_unit_interval (p : float) :
  Float64.in_unit_interval p ->
  fixed_point 10 (format_10f p) = true /\
  exists q : Q, value (format_10f p) = Some q /\ (0 <= q)%Q /\ (q <= 1)%Q.
Proof.
  intros (Hfin & Hlo & Hhi). destruct p as [s|s| |s m e]; try discriminate.
  - destruct s; (split; [reflexivity|]); eexists; (split; [vm_compute; reflexivity|]);
      split; discriminate.
  - destruct s.
    + exfalso. exact (Qlt_not_le _ _ (Float64Facts.dyadic_negative m e) Hlo).
    + cbn [Float64.to_Q] in Hhi. apply scaled_unit_interval in Hhi.
      cbn [format_10f sign_prefix]. set (n := scaled m e) in *.
      assert (0 < 10 ^ 10) as Hten by lia.
      destruct (Z.eq_dec n (10 ^ 10)) as [Heq|Hne].
      * rewrite Heq. rewrite Z.div_same, Z.mod_same by lia.
        split; [reflexivity|]. eexists. split; [vm_compute; reflexivity|].
        split; discriminate.
      * assert (0 <= n < 10 ^ 10) as Hn by lia.
        rewrite Z.div_small, Z.mod_small by exact Hn. rewrite decimal_0.
        pose proof (fixed_digits_length 10 n) as Hlen.
        pose proof (fixed_digits_all_digits 10 n) as Hdig.
        pose proof (fixed_digits_value 10 n 0) as Hval.
        rewrite Z.mod_small in Hval by exact Hn.
        set (fd := fixed_digits 10 n) in *. clearbody fd.
        split.
        -- change (fixed_point 10 ("0." +:+ fd) = true).
           rewrite fixed_point_below_one, Hlen, Hdig. reflexivity.
        -- change (exists q : Q, value ("0." +:+ fd) = Some q /\ (0 <= q)%Q /\ (q <= 1)%Q).
           rewrite value_below_one, Hlen, Hval by exact Hdig.
           eexists. split; [reflexivity|].
           split; unfold Qle; cbn [Qnum Qden]; rewrite ?Z2Pos.id; simpl; lia.
Qed.

End FormatFacts.

(** ** The frame is only read *)

Section Frame.

Lemma frame_preserving_ret {A : Type} (a : A) : frame_preserving (mret a).
Proof. intros w. split; [reflexivity|]. exists []. simpl. now rewrite app_nil_r. Qed.

Lemma frame_preserving_raise {A : Type} (e : exception) : frame_preserving (@raise A e).
Proof. intros w. split; [reflexivity|]. exists []. simpl. now rewrite app_nil_r. Qed.

Lemma frame_preserving_bind {A B : Type} (c : M A) (f : A -> M B) :
  frame_preserving c -> (forall a, frame_preserving (f a)) -> frame_preserving (c ≫= f).
Proof.
  intros Hc Hf w. unfold mbind, M_bind.
  destruct (Hc w) as [Hfr [shown Hpg]].
  destruct (c w) as [[a|e] w1]; simpl in *.
  - destruct (Hf a w1) as [Hfr' [shown' Hpg']].
    split; [congruence|]. exists (shown ++ shown'). rewrite Hpg', Hpg. now rewrite app_assoc.
  - split; [assumption|]. now exists shown.
Qed.

Lemma frame_preserving_st_warning (msg : string) : frame_preserving (st_warning msg).
Proof. intros w. split; [reflexivity|]. now exists [st_warning_msg msg]. Qed.

Lemma frame_preserving_st_error (msg : string) : frame_preserving (st_error msg).
Proof. intros w. split; [reflexivity|]. now exists [st_error_msg msg]. Qed.

Lemma frame_preserving_data_columns : frame_preserving data_columns.
Proof. intros w. split; [reflexivity|]. exists []. simpl. now rewrite app_nil_r. Qed.

Lemma frame_preserving_data_getitem (col : string) : frame_preserving (data_getitem col).
Proof.
  intros w. unfold data_getitem. destruct (getitem (frame w) col);
    (split; [reflexivity|]); exists []; simpl; now rewrite app_nil_r.
Qed.

Lemma frame_preserving_index {A : Type} (xs : list A) (i : nat) :
  frame_preserving (index xs i).
Proof.
  unfold index. destruct (xs !! i);
    [apply frame_preserving_ret | apply frame_preserving_raise].
Qed.

Lemma frame_preserving_read_local {A : Type} (var : string) (v : option A) :
  frame_preserving (read_local var v).
Proof.
  destruct v; [apply frame_preserving_ret | apply frame_preserving_raise].
Qed.

Lemma frame_preserving_for_each {A S : Type} (xs : list A) (body : A -> S -> M S) (s : S) :
  (forall x s', frame_preserving (body x s')) -> frame_preserving (for_each xs body s).
Proof.
  intros Hbody. revert s. induction xs as [|x xs IH]; intros s; simpl.
  - apply frame_preserving_ret.
  - apply frame_preserving_bind; [apply Hbody | apply IH].
Qed.

Variable ttest_ind : Series -> Series -> stat_result.
Variable mannwhitneyu : Series -> Series -> stat_result.

Lemma frame_preserving_selected_test (test_type col1 col2 : string)
    (sample1 sample2 : Series) (l : locals) :
  frame_preserving
    (selected_test ttest_ind mannwhitneyu test_type col1 col2 sample1 sample2 l).
Proof.
  unfold selected_test.
  destruct (String.eqb test_type "ttest"); [|destruct (String.eqb test_type "mannwhitney")].
  - destruct (ttest_ind sample1 sample2); [apply frame_preserving_ret|].
    apply frame_preserving_bind; [apply frame_preserving_st_error|].
    intros _. apply frame_preserving_ret.
  - destruct (mannwhitneyu sample1 sample2); [apply frame_preserving_ret|].
    apply frame_preserving_bind; [apply frame_preserving_st_error|].
    intros _. apply frame_preserving_ret.
  - apply frame_preserving_ret.
Qed.

Lemma frame_preserving_loop_body (test_type : string) (cols : list string)
    (i j : nat) (l : locals) :
  frame_preserving (loop_body ttest_ind mannwhitneyu test_type cols i j l).
Proof.
  unfold loop_body.
  apply frame_preserving_bind; [apply frame_preserving_index | intros col1].
  apply frame_preserving_bind; [apply frame_preserving_index | intros col2].
  apply frame_preserving_bind; [apply frame_preserving_data_getitem | intros s1].
  apply frame_preserving_bind; [apply frame_preserving_data_getitem | intros s2].
  destruct (_ || _).
  - apply frame_preserving_bind; [apply frame_preserving_st_warning | intros _].
    apply frame_preserving_ret.
  - apply frame_preserving_bind; [apply frame_preserving_selected_test | intros [l'|]].
    + apply frame_preserving_bind; [apply frame_preserving_read_local | intros p].
      apply frame_preserving_ret.
    + apply frame_preserving_ret.
Qed.

Lemma frame_preserving_perform_statistical_tests (test_type : string) :
  frame_preserving (perform_statistical_tests ttest_ind mannwhitneyu test_type).
Proof.
  unfold perform_statistical_tests.
  apply frame_preserving_bind; [apply frame_preserving_data_columns | intros cols].
  apply frame_preserving_bind; [|intros l; apply frame_preserving_ret].
  apply frame_preserving_for_each. intros i l.
  apply frame_preserving_for_each. intros j l'.
  apply frame_preserving_loop_body.
Qed.

End Frame.

(** ** Order of the enumeration *)

Lemma row_pairs_sorted (i lo len : nat) :
  StronglySorted lex_lt (List.map (fun j => (i, j)) (seq lo len)).
Proof.
  revert lo. induction len as [|len IH]; intros lo; simpl.
  - constructor.
  - constructor; [apply IH|].
    apply Forall_forall. intros [i' j'] Hin.
    apply list_elem_of_In, in_map_iff in Hin as (j & Heq & Hj).
    inversion Heq; subst. apply in_seq in Hj. right. simpl. lia.
Qed.

Lemma pairs_from_sorted (n lo len : nat) :
  StronglySorted lex_lt
    (flat_map (fun i => List.map (fun j => (i, j)) (range (i + 1) n)) (seq lo len)).
Proof.
  revert lo. induction len as [|len IH]; intros lo; simpl.
  - constructor.
  - apply StronglySorted_app. split; [|split].
    + intros [i1 j1] [i2 j2] H1 H2.
      apply list_elem_of_In, in_map_iff in H1 as (j & Heq & _). inversion Heq; subst.
      apply list_elem_of_In, in_flat_map in H2 as (i & Hi & H2).
      apply in_map_iff in H2 as (j' & Heq' & _). inversion Heq'; subst.
      apply in_seq in Hi. left. simpl. lia.
    + apply row_pairs_sorted.
    + apply IH.
Qed.

(** The loops visit the pairs in strictly increasing lexicographic order. *)
Lemma pairs_sorted (n : nat) : StronglySorted lex_lt (pairs n).
Proof. apply pairs_from_sorted. Qed.

(** ** The page does not steer the run *)

Section PageIndependence.

Variable ttest_ind : Series -> Series -> stat_result.
Variable mannwhitneyu : Series -> Series -> stat_result.

Lemma walk_page_independent (test_type : string) (data : DataFrame)
    (ps : list (nat * nat)) (l : locals) (log1 log2 : list advisory) :
  (walk ttest_ind mannwhitneyu test_type data ps l log1).1 =
  (walk ttest_ind mannwhitneyu test_type data ps l log2).1.
Proof.
  revert l log1 log2. induction ps as [|[i j] ps IH]; intros l log1 log2.
  - reflexivity.
  - cbn [walk]. destruct (verdict_of _ _ _ _ _ _) as [|notice|p|]; try apply IH.
    destruct (p_value l); [apply IH | reflexivity].
Qed.

Lemma call_page_independent (test_type : string) (data : DataFrame)
    (log1 log2 : list advisory) :
  NoDup (columns data) ->
  (call ttest_ind mannwhitneyu data test_type log1).1 =
  (call ttest_ind mannwhitneyu data test_type log2).1.
Proof.
  intros Hnd. rewrite !call_walk by assumption.
  pose proof (walk_page_independent test_type data (pairs (length data))
                (Locals [] None) log1 log2) as H.
  destruct (walk _ _ _ _ _ _ log1) as [o1 l1], (walk _ _ _ _ _ _ log2) as [o2 l2].
  simpl in *. now subst.
Qed.

End PageIndependence.

(** ** Pairs and their rows *)

Section Rows.

Variable ttest_ind : Series -> Series -> stat_result.
Variable mannwhitneyu : Series -> Series -> stat_result.

Lemma verdict_of_returned (test_type : string) (data : DataFrame) (i j : nat) (p : float) :
  sufficient data i j = true ->
  test_returned ttest_ind mannwhitneyu test_type data i j p ->
  verdict_of ttest_ind mannwhitneyu test_type data i j = Computed p.
Proof.
  intros Hs [[-> H]|[-> H]]; unfold verdict_of; rewrite Hs; simpl; now rewrite H.
Qed.

Lemma elem_of_table (test_type : string) (data : DataFrame) (r : row) :
  r ∈ table ttest_ind mannwhitneyu test_type data ->
  exists i j p,
    (i, j) ∈ pairs (length data) /\
    sufficient data i j = true /\
    test_returned ttest_ind mannwhitneyu test_type data i j p /\
    r = row_of data (i, j, p).
Proof.
  unfold table. intros H. apply list_elem_of_fmap in H as ([[i j] p] & -> & H).
  apply elem_of_computed_in in H as [Hin Hv].
  apply verdict_computed in Hv as [Hs Hr].
  exists i, j, p. auto.
Qed.

Lemma returned_in_table (test_type : string) (data : DataFrame) (i j : nat) (p : float) :
  (i, j) ∈ pairs (length data) -> sufficient data i j = true ->
  test_returned ttest_ind mannwhitneyu test_type data i j p ->
  row_of data (i, j, p) ∈ table ttest_ind mannwhitneyu test_type data.
Proof.
  intros Hin Hs Hr. unfold table. apply list_elem_of_fmap_2.
  apply elem_of_computed_in. split; [assumption|]. now apply verdict_of_returned.
Qed.

Lemma skip_notice_shown (test_type : string) (data : DataFrame) (i j : nat) :
  (i, j) ∈ pairs (length data) -> sufficient data i j = false ->
  skip_notice data i j ∈ notices ttest_ind mannwhitneyu test_type data.
Proof.
  intros Hin Hs. unfold notices, notices_in. apply list_elem_of_omap.
  exists (i, j). split; [assumption|]. simpl. now rewrite verdict_insufficient.
Qed.

Lemma failure_notice_shown (test_type : string) (data : DataFrame) (i j : nat)
    (notice : advisory) :
  (i, j) ∈ pairs (length data) ->
  verdict_of ttest_ind mannwhitneyu test_type data i j = Failed notice ->
  notice ∈ notices ttest_ind mannwhitneyu test_type data.
Proof.
  intros Hin Hv. unfold notices, notices_in. apply list_elem_of_omap.
  exists (i, j). split; [assumption|]. simpl. now rewrite Hv.
Qed.

Lemma not_computed (test_type : string) (data : DataFrame) (i j : nat) (p : float) :
  verdict_of ttest_ind mannwhitneyu test_type data i j <> Computed p ->
  (i, j, p) ∉ computed ttest_ind mannwhitneyu test_type data.
Proof.
  intros Hv Hin. apply elem_of_computed_in in Hin as [_ H]. contradiction.
Qed.

(** The first pair with enough data, when there is one. *)
Lemma first_sufficient (data : DataFrame) (ps : list (nat * nat)) (i j : nat) :
  (i, j) ∈ ps -> sufficient data i j = true ->
  exists pre i0 j0 post,
    ps = pre ++ (i0, j0) :: post /\
    Forall (fun ij => sufficient data ij.1 ij.2 = false) pre /\
    sufficient data i0 j0 = true.
Proof.
  induction ps as [|[a b] ps IH]; intros Hin Hs.
  - inversion Hin.
  - destruct (sufficient data a b) eqn:E.
    + exists [], a, b, ps. auto.
    + apply elem_of_cons in Hin as [Heq|Hin]; [inversion Heq; subst; congruence|].
      destruct (IH Hin Hs) as (pre & i0 & j0 & post & -> & Hpre & H0).
      exists ((a, b) :: pre), i0, j0, post. split; [reflexivity|]. split; [|assumption].
      constructor; assumption.
Qed.

End Rows.

(** ** The example frames have distinct labels *)

Lemma df_labels_distinct : NoDup (columns Examples.df).
Proof. compute_done. Qed.

Lemma ab_labels_distinct : NoDup (columns Examples.ab).
Proof. compute_done. Qed.

Lemma sparse_labels_distinct : NoDup (columns Examples.sparse).
Proof. compute_done. Qed.

(** * The claims *)

Section Claims.

Variable ttest_ind : Series -> Series -> stat_result.
Variable mannwhitneyu : Series -> Series -> stat_result.

(** C1, as amended: every row of a returned table comes from a pair whose
    test returned a p-value [p], and its significance flag is the string
    "sig" if and only if [p < 0.05] holds for the raw float, "nonsig"
    otherwise; for a binary64 [p] that is the numeric comparison with
    1/20, and the p-value 0.05 itself is flagged "nonsig". *)
Theorem significance_flag_sig_iff_below_threshold
    (data : DataFrame) (test_type : string) (log : list advisory)
    (tbl : list row) (w' : world) (r : row) :
  NoDup (columns data) ->
  call ttest_ind mannwhitneyu data test_type log = (Ret tbl, w') ->
  r ∈ tbl ->
  exists i j p,
    (i, j) ∈ pairs (length data) /\
    test_returned ttest_ind mannwhitneyu test_type data i j p /\
    r = row_of data (i, j, p) /\
    (Significance r = "sig" <-> Float64.lt p Float64.lit_0_05 = true) /\
    (Significance r = "nonsig" <-> Float64.lt p Float64.lit_0_05 = false) /\
    (Float64.is_binary64 p = true ->
       (Significance r = "sig" <-> Float64.below p (1 # 20)%Q)) /\
    significance_of Float64.lit_0_05 = "nonsig".
Proof.
  intros Hnd Hcall Hr. apply call_returns in Hcall as [-> _]; [|assumption].
  apply elem_of_table in Hr as (i & j & p & Hin & _ & Hret & ->).
  exists i, j, p. split; [assumption|]. split; [assumption|]. split; [reflexivity|].
  assert (Significance (row_of data (i, j, p)) = "sig" <->
          Float64.lt p Float64.lit_0_05 = true) as Hsig.
  { simpl. unfold significance_of.
    destruct (Float64.lt p Float64.lit_0_05); split; congruence. }
  split; [exact Hsig|]. split.
  - simpl. unfold significance_of.
    destruct (Float64.lt p Float64.lit_0_05); split; congruence.
  - split; [|reflexivity]. intros Hb. rewrite Hsig.
    now apply Float64Facts.lt_0_05_below.
Qed.

(** C2, as amended: every row of a returned table carries the rendering
    [f"{p:.10f}"] of the p-value [p] its test returned.  When [p] is a
    finite real in [0,1] the field is a fixed-point decimal with exactly
    ten digits after the point and reads back as a number in [0,1].  No
    pair is left out for its p-value: whatever the test returns on a pair
    with enough data gets a row, and a NaN is rendered as "nan". *)
Theorem p_value_field_renders_returned_p_value
    (data : DataFrame) (test_type : string) (log : list advisory)
    (tbl : list row) (w' : world) :
  NoDup (columns data) ->
  call ttest_ind mannwhitneyu data test_type log = (Ret tbl, w') ->
  (forall r, r ∈ tbl ->
     exists i j p,
       (i, j) ∈ pairs (length data) /\
       test_returned ttest_ind mannwhitneyu test_type data i j p /\
       p_value_field r = Format.format_10f p /\
       (Float64.in_unit_interval p ->
          Parse.fixed_point 10 (p_value_field r) = true /\
          exists q : Q, Parse.value (p_value_field r) = Some q /\ (0 <= q)%Q /\ (q <= 1)%Q) /\
       (Float64.is_nan p = true -> p_value_field r = "nan")) /\
  (forall i j p,
     (i, j) ∈ pairs (length data) -> sufficient data i j = true ->
     test_returned ttest_ind mannwhitneyu test_type data i j p ->
     row_of data (i, j, p) ∈ tbl).
Proof.
  intros Hnd Hcall. apply call_returns in Hcall as [-> _]; [|assumption]. split.
  - intros r Hr. apply elem_of_table in Hr as (i & j & p & Hin & _ & Hret & ->).
    exists i, j, p. split; [assumption|]. split; [assumption|]. split; [reflexivity|].
    split.
    + intros Hp. simpl. now apply FormatFacts.format_unit_interval.
    + intros Hp. destruct p; try discriminate. reflexivity.
  - intros i j p Hin Hs Hret. now apply returned_in_table.
Qed.

(** C3, as amended: on the frame with columns A = [1,1,1,1] and
    B = [1,1,1,1] under 'ttest', the run shows the error message for A and
    B and returns an empty table when the test raises, and otherwise
    returns the single row "A vs B" with the rendering of whatever p-value
    the test returned; that row reads "1.0000000000", "nonsig" when the
    p-value is 1.0. *)
Theorem zero_variance_pair_follows_the_test (log : list advisory) :
  call ttest_ind mannwhitneyu Examples.ab "ttest" log =
  match ttest_ind (Examples.ints [1; 1; 1; 1]) (Examples.ints [1; 1; 1; 1]) with
  | Failure e =>
      (Ret [],
       World Examples.ab (log ++ [st_error_msg ("Error in t-test between A and B: " +:+ e)]))
  | Pvalue p =>
      (Ret [Row "A vs B" (Format.format_10f p) (significance_of p)],
       World Examples.ab log)
  end
  /\ Format.format_10f Float64.one = "1.0000000000"
  /\ significance_of Float64.one = "nonsig".
Proof.
  split; [|split; reflexivity].
  rewrite call_known_test; [|exact ab_labels_distinct|reflexivity].
  unfold table, notices, computed.
  change (pairs (length Examples.ab)) with [(0, 1)]%nat.
  rewrite computed_in_cons, notices_in_cons.
  unfold verdict_of.
  change (sufficient Examples.ab 0 1) with true.
  change (String.eqb "ttest" "ttest") with true. cbv iota.
  change (sample Examples.ab 0) with (Examples.ints [1; 1; 1; 1]).
  change (sample Examples.ab 1) with (Examples.ints [1; 1; 1; 1]).
  destruct (ttest_ind _ _) as [p|e].
  - simpl. rewrite app_nil_r. reflexivity.
  - reflexivity.
Qed.

(** C4: a pair one of whose columns has fewer than two values left after
    the missing ones are dropped is skipped, whatever the test type: its
    iteration shows the warning, adds no row and completes normally, so the
    loop goes on; a table the call returns has no row for the pair, and
    the warning is on the page. *)
Theorem insufficient_pair_is_skipped
    (data : DataFrame) (test_type : string) (i j : nat) :
  NoDup (columns data) ->
  (i, j) ∈ pairs (length data) ->
  sufficient data i j = false ->
  (forall (l : locals) (log : list advisory),
     loop_body ttest_ind mannwhitneyu test_type (columns data) i j l (World data log) =
     (Ret l, World data (log ++ [skip_notice data i j]))) /\
  (forall (log : list advisory) (tbl : list row) (w' : world),
     call ttest_ind mannwhitneyu data test_type log = (Ret tbl, w') ->
     tbl = row_of data <$> computed ttest_ind mannwhitneyu test_type data /\
     (forall p, (i, j, p) ∉ computed ttest_ind mannwhitneyu test_type data) /\
     Forall (fun c => sufficient data c.1.1 c.1.2 = true)
       (computed ttest_ind mannwhitneyu test_type data) /\
     skip_notice data i j ∈ page w').
Proof.
  intros Hnd Hin Hs. pose proof Hin as Hb. apply elem_of_pairs in Hb. split.
  - intros l log. rewrite loop_body_verdict by (auto; lia).
    now rewrite verdict_insufficient.
  - intros log tbl w' Hcall. apply call_returns in Hcall as [-> ->]; [|assumption].
    split; [reflexivity|]. split; [|split].
    + intros p. apply not_computed. now rewrite verdict_insufficient.
    + apply Forall_forall. intros [[a b] p] Hc.
      apply elem_of_computed_in in Hc as [_ Hv].
      now apply verdict_computed in Hv as [Hv _].
    + simpl. apply elem_of_app. right. now apply skip_notice_shown.
Qed.

(** C5: the loops visit exactly the index pairs (i, j) with
    i < j < column count, in increasing lexicographic order, and that
    depends on the number of columns only; the rows of a returned table
    are the rows of a subsequence of the visited pairs, in the same order,
    each labelled "<name_i> vs <name_j>". *)
Theorem rows_follow_the_enumeration
    (data : DataFrame) (test_type : string) (log : list advisory)
    (tbl : list row) (w' : world) :
  NoDup (columns data) ->
  call ttest_ind mannwhitneyu data test_type log = (Ret tbl, w') ->
  (forall i j, (i, j) ∈ pairs (length data) <-> (i < j < length data)%nat) /\
  StronglySorted lex_lt (pairs (length data)) /\
  exists cs : list (nat * nat * float),
    cs.*1 `sublist_of` pairs (length data) /\
    tbl = row_of data <$> cs /\
    Comparison <$> tbl =
      (fun c => label data c.1.1 +:+ " vs " +:+ label data c.1.2) <$> cs.
Proof.
  intros Hnd Hcall. apply call_returns in Hcall as [-> _]; [|assumption].
  split; [intros i j; apply elem_of_pairs|]. split; [apply pairs_sorted|].
  exists (computed ttest_ind mannwhitneyu test_type data).
  split; [apply computed_in_sublist|]. split; [reflexivity|].
  unfold table. rewrite <- list_fmap_compose. apply list_fmap_ext.
  intros k [[i j] p] _. reflexivity.
Qed.

(** C6: with 'ttest' or 'mannwhitney' the call always returns: the table
    holds a row for every pair with enough data on which the test returned
    a p-value, and a pair on which the test raised has no row and its
    error message, which names both columns and carries the text of the
    exception, is on the page. *)
Theorem test_failure_skips_only_that_pair
    (data : DataFrame) (test_type : string) (log : list advisory) :
  NoDup (columns data) ->
  valid_test_type test_type = true ->
  call ttest_ind mannwhitneyu data test_type log =
    (Ret (table ttest_ind mannwhitneyu test_type data),
     World data (log ++ notices ttest_ind mannwhitneyu test_type data)) /\
  (forall i j p,
     (i, j) ∈ pairs (length data) -> sufficient data i j = true ->
     test_returned ttest_ind mannwhitneyu test_type data i j p ->
     row_of data (i, j, p) ∈ table ttest_ind mannwhitneyu test_type data) /\
  (forall i j e,
     (i, j) ∈ pairs (length data) -> sufficient data i j = true ->
     test_type = "ttest" ->
     ttest_ind (sample data i) (sample data j) = Failure e ->
     ttest_failure_notice data i j e ∈ notices ttest_ind mannwhitneyu test_type data /\
     forall p, (i, j, p) ∉ computed ttest_ind mannwhitneyu test_type data) /\
  (forall i j e,
     (i, j) ∈ pairs (length data) -> sufficient data i j = true ->
     test_type = "mannwhitney" ->
     mannwhitneyu (sample data i) (sample data j) = Failure e ->
     mannwhitney_failure_notice data i j e ∈ notices ttest_ind mannwhitneyu test_type data /\
     forall p, (i, j, p) ∉ computed ttest_ind mannwhitneyu test_type data).
Proof.
  intros Hnd Hv. split; [now apply call_known_test|].
  split; [intros i j p; apply returned_in_table|]. split.
  - intros i j e Hin Hs -> He.
    assert (verdict_of ttest_ind mannwhitneyu "ttest" data i j =
            Failed (ttest_failure_notice data i j e)) as Hf.
    { unfold verdict_of. rewrite Hs. simpl. now rewrite He. }
    split; [now apply (failure_notice_shown _ _ _ _ i j)|].
    intros p. apply not_computed. rewrite Hf. discriminate.
  - intros i j e Hin Hs -> He.
    assert (verdict_of ttest_ind mannwhitneyu "mannwhitney" data i j =
            Failed (mannwhitney_failure_notice data i j e)) as Hf.
    { unfold verdict_of. rewrite Hs. simpl. now rewrite He. }
    split; [now apply (failure_notice_shown _ _ _ _ i j)|].
    intros p. apply not_computed. rewrite Hf. discriminate.
Qed.

(** C7: a second call on the same frame with the same test type, made in
    the state the first call left behind, has the same outcome as the
    first: the same table, rows in the same order. *)
Theorem repeated_call_same_table
    (data : DataFrame) (test_type : string) (log : list advisory)
    (o1 o2 : outcome (list row)) (w1 w2 : world) :
  NoDup (columns data) ->
  call ttest_ind mannwhitneyu data test_type log = (o1, w1) ->
  perform_statistical_tests ttest_ind mannwhitneyu test_type w1 = (o2, w2) ->
  o2 = o1.
Proof.
  intros Hnd H1 H2.
  pose proof (frame_preserving_perform_statistical_tests ttest_ind mannwhitneyu
                test_type (World data log)) as [Hfr _].
  unfold call in H1. rewrite H1 in Hfr. simpl in Hfr.
  destruct w1 as [d1 page1]. simpl in Hfr. subst d1.
  pose proof (call_page_independent ttest_ind mannwhitneyu test_type data log page1 Hnd)
    as Hind.
  unfold call in Hind. rewrite H1, H2 in Hind. simpl in Hind. congruence.
Qed.

(** C8: on a frame with no column or a single column the call returns an
    empty table and shows nothing. *)
Theorem at_most_one_column_gives_empty_table
    (data : DataFrame) (test_type : string) (log : list advisory) :
  (length data <= 1)%nat ->
  call ttest_ind mannwhitneyu data test_type log = (Ret [], World data log).
Proof.
  intros H. destruct data as [|[name cells] [|c rest]]; [reflexivity|reflexivity|].
  simpl in H. lia.
Qed.

(** C9: whatever the outcome of a call, the frame it was given is the
    same afterwards, and the page holds what it held before followed by
    the messages of the call. *)
Theorem input_frame_is_unchanged
    (data : DataFrame) (test_type : string) (log : list advisory)
    (o : outcome (list row)) (w' : world) :
  call ttest_ind mannwhitneyu data test_type log = (o, w') ->
  frame w' = data /\ exists shown : list advisory, page w' = log ++ shown.
Proof.
  intros H.
  pose proof (frame_preserving_perform_statistical_tests ttest_ind mannwhitneyu
                test_type (World data log)) as Hfp.
  unfold call in H. rewrite H in Hfp. exact Hfp.
Qed.

(** C10: with 'ttest' or 'mannwhitney' the call returns.  With any other
    test type it warns about the pairs short of data that come first and,
    at the first pair whose two cleaned samples have two values or more,
    raises the unbound-variable error for [p_value]. *)
Theorem unknown_test_type_raises_unbound_p_value
    (data : DataFrame) (test_type : string) (log : list advisory) :
  NoDup (columns data) ->
  (valid_test_type test_type = true ->
     exists tbl w', call ttest_ind mannwhitneyu data test_type log = (Ret tbl, w')) /\
  (valid_test_type test_type = false ->
     forall pre i j post,
       pairs (length data) = pre ++ (i, j) :: post ->
       Forall (fun ij => sufficient data ij.1 ij.2 = false) pre ->
       sufficient data i j = true ->
       call ttest_ind mannwhitneyu data test_type log =
       (Raise (UnboundLocalError "p_value"),
        World data (log ++ ((fun ij => skip_notice data ij.1 ij.2) <$> pre)))) /\
  (valid_test_type test_type = false ->
     (exists i j, (i, j) ∈ pairs (length data) /\ sufficient data i j = true) ->
     exists w', call ttest_ind mannwhitneyu data test_type log =
                (Raise (UnboundLocalError "p_value"), w')).
Proof.
  intros Hnd. split; [|split].
  - intros Hv. eexists _, _. now apply call_known_test.
  - intros Hv pre i j post Hsplit Hpre Hij.
    now apply call_unknown_test with (post := post) (i := i) (j := j).
  - intros Hv (i & j & Hin & Hs).
    destruct (first_sufficient data _ i j Hin Hs) as (pre & i0 & j0 & post & Hsplit & Hpre & H0).
    eexists. eapply call_unknown_test with (post := post) (i := i0) (j := j0); eassumption.
Qed.

End Claims.

(** * The claims on the example frames *)

(** C1: the flag of a row whose raw p-value is 0.01 is "sig", not
    "significant". *)
Lemma significance_flag_is_not_the_word_significant :
  exists tbl w' r,
    call (Examples.stub_test Examples.p_0_01) (Examples.stub_test Examples.p_0_01)
      Examples.df "ttest" [] = (Ret tbl, w') /\
    r ∈ tbl /\
    r = row_of Examples.df (0, 1, Examples.p_0_01)%nat /\
    test_returned (Examples.stub_test Examples.p_0_01) (Examples.stub_test Examples.p_0_01)
      "ttest" Examples.df 0 1 Examples.p_0_01 /\
    Float64.lt Examples.p_0_01 Float64.lit_0_05 = true /\
    Float64.below Examples.p_0_01 (1 # 20)%Q /\
    Significance r <> "significant".
Proof.
  eexists _, _, (Row "Sample1 vs Sample2" "0.0100000000" "sig").
  split; [vm_compute; reflexivity|].
  split; [apply list_elem_of_here|].
  split; [reflexivity|].
  split; [left; split; reflexivity|].
  split; [reflexivity|].
  split; [reflexivity | discriminate].
Qed.

Lemma significance_flag_sig_iff_below_threshold_witness :
  exists i j p,
    (i, j) ∈ pairs (length Examples.df) /\
    test_returned (Examples.stub_test Examples.p_0_01) (Examples.stub_test Float64.one)
      "ttest" Examples.df i j p /\
    Row "Sample1 vs Sample2" "0.0100000000" "sig" = row_of Examples.df (i, j, p) /\
    (Significance (Row "Sample1 vs Sample2" "0.0100000000" "sig") = "sig" <->
       Float64.lt p Float64.lit_0_05 = true) /\
    (Significance (Row "Sample1 vs Sample2" "0.0100000000" "sig") = "nonsig" <->
       Float64.lt p Float64.lit_0_05 = false) /\
    (Float64.is_binary64 p = true ->
       (Significance (Row "Sample1 vs Sample2" "0.0100000000" "sig") = "sig" <->
          Float64.below p (1 # 20)%Q)) /\
    significance_of Float64.lit_0_05 = "nonsig".
Proof.
  eapply (significance_flag_sig_iff_below_threshold
            (Examples.stub_test Examples.p_0_01) (Examples.stub_test Float64.one)
            Examples.df "ttest" []).
  - exact df_labels_distinct.
  - vm_compute. reflexivity.
  - apply list_elem_of_here.
Defined.

(** C2: a NaN p-value is not left out; its row carries "nan", which is no
    fixed-point decimal and denotes no number. *)
Lemma nan_p_value_row_is_emitted :
  call (Examples.stub_test Float64.one) (Examples.stub_test Float64.one)
    Examples.ab "ttest" [] =
    (Ret [Row "A vs B" "nan" "nonsig"], World Examples.ab []) /\
  test_returned (Examples.stub_test Float64.one) (Examples.stub_test Float64.one)
    "ttest" Examples.ab 0 1 Examples.nan /\
  ~ Float64.in_unit_interval Examples.nan /\
  Parse.fixed_point 10 "nan" = false /\
  Parse.value "nan" = None.
Proof.
  split; [vm_compute; reflexivity|].
  split; [left; split; reflexivity|].
  split; [intros [H _]; discriminate|].
  split; reflexivity.
Qed.

Lemma p_value_field_renders_returned_p_value_witness :
  (forall r,
     r ∈ [Row "Sample1 vs Sample2" "0.0100000000" "sig";
          Row "Sample1 vs Sample3" "0.0100000000" "sig";
          Row "Sample2 vs Sample3" "0.0100000000" "sig"] ->
     exists i j p,
       (i, j) ∈ pairs (length Examples.df) /\
       test_returned (Examples.stub_test Examples.p_0_01) (Examples.stub_test Float64.one)
         "ttest" Examples.df i j p /\
       p_value_field r = Format.format_10f p /\
       (Float64.in_unit_interval p ->
          Parse.fixed_point 10 (p_value_field r) = true /\
          exists q : Q, Parse.value (p_value_field r) = Some q /\ (0 <= q)%Q /\ (q <= 1)%Q) /\
       (Float64.is_nan p = true -> p_value_field r = "nan")) /\
  (forall i j p,
     (i, j) ∈ pairs (length Examples.df) -> sufficient Examples.df i j = true ->
     test_returned (Examples.stub_test Examples.p_0_01) (Examples.stub_test Float64.one)
       "ttest" Examples.df i j p ->
     row_of Examples.df (i, j, p) ∈
       [Row "Sample1 vs Sample2" "0.0100000000" "sig";
        Row "Sample1 vs Sample3" "0.0100000000" "sig";
        Row "Sample2 vs Sample3" "0.0100000000" "sig"]).
Proof.
  eapply (p_value_field_renders_returned_p_value
            (Examples.stub_test Examples.p_0_01) (Examples.stub_test Float64.one)
            Examples.df "ttest" []).
  - exact df_labels_distinct.
  - vm_compute. reflexivity.
Defined.

(** C3: when the test returns NaN on the two columns without variance, as
    the quotient 0/0 of the t statistic does, the pair is not skipped and its
    row does not read 1.0. *)
Lemma zero_variance_pair_neither_skipped_nor_one :
  exists tbl w',
    call (Examples.stub_test Float64.one) (Examples.stub_test Float64.one)
      Examples.ab "ttest" [] = (Ret tbl, w') /\
    tbl <> [] /\
    page w' = [] /\
    forall r, r ∈ tbl -> p_value_field r <> Format.format_10f Float64.one.
Proof.
  exists [Row "A vs B" "nan" "nonsig"], (World Examples.ab []).
  split; [vm_compute; reflexivity|].
  split; [discriminate|].
  split; [reflexivity|].
  intros r Hr. apply list_elem_of_singleton in Hr. subst r. discriminate.
Qed.

Lemma insufficient_pair_is_skipped_witness :
  (forall (l : locals) (log : list advisory),
     loop_body (Examples.stub_test Examples.p_0_01) (Examples.stub_test Float64.one)
       "mannwhitney" (columns Examples.sparse) 0 1 l (World Examples.sparse log) =
     (Ret l, World Examples.sparse (log ++ [skip_notice Examples.sparse 0 1]))) /\
  (forall (log : list advisory) (tbl : list row) (w' : world),
     call (Examples.stub_test Examples.p_0_01) (Examples.stub_test Float64.one)
       Examples.sparse "mannwhitney" log = (Ret tbl, w') ->
     tbl = row_of Examples.sparse <$>
             computed (Examples.stub_test Examples.p_0_01) (Examples.stub_test Float64.one)
               "mannwhitney" Examples.sparse /\
     (forall p, (0, 1, p)%nat ∉
                computed (Examples.stub_test Examples.p_0_01) (Examples.stub_test Float64.one)
                  "mannwhitney" Examples.sparse) /\
     Forall (fun c => sufficient Examples.sparse c.1.1 c.1.2 = true)
       (computed (Examples.stub_test Examples.p_0_01) (Examples.stub_test Float64.one)
          "mannwhitney" Examples.sparse) /\
     skip_notice Examples.sparse 0 1 ∈ page w').
Proof.
  apply (insufficient_pair_is_skipped
           (Examples.stub_test Examples.p_0_01) (Examples.stub_test Float64.one)
           Examples.sparse "mannwhitney" 0 1).
  - exact sparse_labels_distinct.
  - vm_compute. apply list_elem_of_here.
  - vm_compute. reflexivity.
Defined.

Lemma rows_follow_the_enumeration_witness :
  (forall i j, (i, j) ∈ pairs (length Examples.df) <-> (i < j < length Examples.df)%nat) /\
  StronglySorted lex_lt (pairs (length Examples.df)) /\
  exists cs : list (nat * nat * float),
    cs.*1 `sublist_of` pairs (length Examples.df) /\
    [Row "Sample1 vs Sample2" "0.0100000000" "sig";
     Row "Sample1 vs Sample3" "0.0100000000" "sig";
     Row "Sample2 vs Sample3" "0.0100000000" "sig"] = row_of Examples.df <$> cs /\
    Comparison <$> [Row "Sample1 vs Sample2" "0.0100000000" "sig";
                    Row "Sample1 vs Sample3" "0.0100000000" "sig";
                    Row "Sample2 vs Sample3" "0.0100000000" "sig"] =
      (fun c => label Examples.df c.1.1 +:+ " vs " +:+ label Examples.df c.1.2) <$> cs.
Proof.
  eapply (rows_follow_the_enumeration
            (Examples.stub_test Examples.p_0_01) (Examples.stub_test Float64.one)
            Examples.df "ttest" []).
  - exact df_labels_distinct.
  - vm_compute. reflexivity.
Defined.

Lemma test_failure_skips_only_that_pair_witness :
  call (Examples.same_size_test Examples.p_0_01) (Examples.stub_test Float64.one)
    Examples.df "ttest" [] =
  (Ret [Row "Sample2 vs Sample3" "0.0100000000" "sig"],
   World Examples.df
     [st_error_msg "Error in t-test between Sample1 and Sample2: unequal length arrays";
      st_error_msg "Error in t-test between Sample1 and Sample3: unequal length arrays"]).
Proof.
  etransitivity.
  - apply (test_failure_skips_only_that_pair
             (Examples.same_size_test Examples.p_0_01) (Examples.stub_test Float64.one)
             Examples.df "ttest" []).
    + exact df_labels_distinct.
    + reflexivity.
  - vm_compute. reflexivity.
Defined.

Lemma repeated_call_same_table_witness :
  Ret [Row "Sample1 vs Sample2" "0.0100000000" "sig";
       Row "Sample1 vs Sample3" "0.0100000000" "sig";
       Row "Sample2 vs Sample3" "0.0100000000" "sig"] =
  (call (Examples.stub_test Examples.p_0_01) (Examples.stub_test Float64.one)
     Examples.df "ttest" []).1.
Proof.
  eapply (repeated_call_same_table
            (Examples.stub_test Examples.p_0_01) (Examples.stub_test Float64.one)
            Examples.df "ttest" [] _ _ (World Examples.df []) (World Examples.df [])).
  - exact df_labels_distinct.
  - vm_compute. reflexivity.
  - vm_compute. reflexivity.
Defined.

Lemma at_most_one_column_gives_empty_table_witness :
  call (Examples.stub_test Examples.p_0_01) (Examples.stub_test Float64.one)
    Examples.single "ttest" [] = (Ret [], World Examples.single []).
Proof.
  apply (at_most_one_column_gives_empty_table
           (Examples.stub_test Examples.p_0_01) (Examples.stub_test Float64.one)
           Examples.single "ttest" []).
  simpl. lia.
Defined.

Lemma input_frame_is_unchanged_witness :
  frame (World Examples.df []) = Examples.df /\
  exists shown : list advisory, page (World Examples.df []) = [] ++ shown.
Proof.
  apply (input_frame_is_unchanged
           (Examples.stub_test Examples.p_0_01) (Examples.stub_test Float64.one)
           Examples.df "anova" [] (Raise (UnboundLocalError "p_value"))).
  vm_compute. reflexivity.
Defined.

Lemma unknown_test_type_raises_unbound_p_value_witness :
  call (Examples.stub_test Examples.p_0_01) (Examples.stub_test Float64.one)
    Examples.sparse "anova" [] =
  (Raise (UnboundLocalError "p_value"),
   World Examples.sparse [skip_notice Examples.sparse 0 1]).
Proof.
  apply (proj1 (proj2 (unknown_test_type_raises_unbound_p_value
                         (Examples.stub_test Examples.p_0_01)
                         (Examples.stub_test Float64.one)
                         Examples.sparse "anova" [] sparse_labels_distinct))
           eq_refl [(0, 1)]%nat 0%nat 2%nat [(1, 2)]%nat).
  - vm_compute. reflexivity.
  - repeat constructor.
  - vm_compute. reflexivity.
Defined.

(** * Further properties of the routine *)

(** ** How many pairs *)

Lemma pairs_from_length (n lo len : nat) :
  (lo + len = n)%nat ->
  (2 * length (flat_map (fun i => List.map (fun j => (i, j)) (range (i + 1) n)) (seq lo len))
   = len * (len - 1))%nat.
Proof.
  revert lo. induction len as [|len IH]; intros lo H; simpl flat_map.
  - reflexivity.
  - rewrite length_app, length_map. unfold range at 1. rewrite length_seq.
    specialize (IH (S lo) ltac:(lia)).
    replace (n - (lo + 1))%nat with len by lia.
    destruct len as [|len']; [simpl in *; lia|].
    replace (S (S len') - 1)%nat with (S len') by lia.
    replace (S len' - 1)%nat with len' in IH by lia. nia.
Qed.

Lemma length_pairs (n : nat) : (2 * length (pairs n) = n * (n - 1))%nat.
Proof.
  unfold pairs, range at 2. rewrite Nat.sub_0_r. apply pairs_from_length. lia.
Qed.

Section Counting.

Variable ttest_ind : Series -> Series -> stat_result.
Variable mannwhitneyu : Series -> Series -> stat_result.

(** In a walk that returns, every pair leaves a row or a message. *)
Lemma walk_returns_count (test_type : string) (data : DataFrame) (ps : list (nat * nat))
    (l l' : locals) (log log' : list advisory) :
  valid_test_type test_type = true \/ p_value l = None ->
  walk ttest_ind mannwhitneyu test_type data ps l log = (Ret l', log') ->
  (length (computed_in ttest_ind mannwhitneyu test_type data ps)
   + length (notices_in ttest_ind mannwhitneyu test_type data ps) = length ps)%nat.
Proof.
  revert l log. induction ps as [|[i j] ps IH]; intros l log Hinv H.
  - reflexivity.
  - cbn [walk] in H. rewrite computed_in_cons, notices_in_cons.
    destruct (verdict_of _ _ _ _ _ _) as [|notice|p|] eqn:E.
    + apply IH in H; [|assumption]. simpl. lia.
    + apply IH in H; [|assumption]. simpl. lia.
    + apply IH in H; [simpl; lia|].
      left. eapply verdict_computed_valid; eassumption.
    + destruct Hinv as [Hv|Hn].
      * exfalso. eapply verdict_known_test; eassumption.
      * rewrite Hn in H. discriminate.
Qed.

(** X1: when a call returns, every one of the n(n-1)/2 column pairs has
    left exactly one trace: a row of the table or a message on the page.  So
    the table has at most n(n-1)/2 rows. *)
Theorem rows_and_messages_count_the_pairs
    (data : DataFrame) (test_type : string) (log : list advisory)
    (tbl : list row) (w' : world) :
  NoDup (columns data) ->
  call ttest_ind mannwhitneyu data test_type log = (Ret tbl, w') ->
  exists shown : list advisory,
    page w' = log ++ shown /\
    (2 * (length tbl + length shown) = length data * (length data - 1))%nat.
Proof.
  intros Hnd Hcall. pose proof Hcall as Hret.
  apply call_returns in Hret as [-> ->]; [|assumption].
  exists (notices ttest_ind mannwhitneyu test_type data). split; [reflexivity|].
  rewrite call_walk in Hcall by assumption.
  destruct (walk _ _ _ _ _ _ _) as [[l'|e] log'] eqn:E; [|discriminate].
  apply walk_returns_count in E; [|now right].
  unfold table, notices, computed. rewrite length_fmap, E. apply length_pairs.
Qed.

End Counting.

(** ** What the tests get to see *)




Section Consulted.

Variable t1 m1 t2 m2 : Series -> Series -> stat_result.
Variable data : DataFrame.
Variable test_type : string.

Hypothesis agree :
  forall a b : Series,
    Forall (fun x => Float64.is_nan x = false) a ->
    Forall (fun x => Float64.is_nan x = false) b ->
    (2 <= length a)%nat -> (2 <= length b)%nat ->
    (exists c1 s1 c2 s2,
       (c1, s1) ∈ data /\ (c2, s2) ∈ data /\ a = dropna s1 /\ b = dropna s2) ->
    (test_type = "ttest" -> t1 a b = t2 a b) /\
    (test_type = "mannwhitney" -> m1 a b = m2 a b).



End Consulted.


(** ** An unknown test type on a frame without data *)

Section UnknownTest.

Variable ttest_ind : Series -> Series -> stat_result.
Variable mannwhitneyu : Series -> Series -> stat_result.

Lemma walk_unknown_test_returns (test_type : string) (data : DataFrame)
    (ps : list (nat * nat)) (l l' : locals) (log log' : list advisory) :
  valid_test_type test_type = false -> p_value l = None ->
  walk ttest_ind mannwhitneyu test_type data ps l log = (Ret l', log') ->
  Forall (fun ij => sufficient data ij.1 ij.2 = false) ps.
Proof.
  intros Hv. revert l log. induction ps as [|[i j] ps IH]; intros l log Hn H.
  - constructor.
  - cbn [walk] in H. destruct (sufficient data i j) eqn:Hs.
    + rewrite verdict_unknown_test in H by assumption. rewrite Hn in H. discriminate.
    + rewrite verdict_insufficient in H by assumption.
      constructor; [exact Hs | eapply IH; eassumption].
Qed.

Lemma call_unknown_test_no_data
    (data : DataFrame) (test_type : string) (log : list advisory) :
  NoDup (columns data) ->
  valid_test_type test_type = false ->
  Forall (fun ij => sufficient data ij.1 ij.2 = false) (pairs (length data)) ->
  call ttest_ind mannwhitneyu data test_type log =
  (Ret [], World data
             (log ++ ((fun ij => skip_notice data ij.1 ij.2) <$> pairs (length data)))).
Proof.
  intros Hnd Hv Hall. rewrite call_walk by assumption.
  rewrite <- (app_nil_r (pairs (length data))) at 1.
  rewrite walk_unknown_test_skips by assumption. reflexivity.
Qed.

Lemma call_unknown_test_returned
    (data : DataFrame) (test_type : string) (log : list advisory)
    (tbl : list row) (w' : world) :
  NoDup (columns data) ->
  valid_test_type test_type = false ->
  call ttest_ind mannwhitneyu data test_type log = (Ret tbl, w') ->
  Forall (fun ij => sufficient data ij.1 ij.2 = false) (pairs (length data)).
Proof.
  intros Hnd Hv Hcall. rewrite call_walk in Hcall by assumption.
  destruct (walk _ _ _ _ _ _ _) as [[l'|e] log'] eqn:E; [|discriminate].
  eapply walk_unknown_test_returns; [exact Hv | | exact E]. reflexivity.
Qed.

(** X3: with a test type other than 'ttest' and 'mannwhitney' the call
    returns exactly when no pair of columns has two values or more on both
    sides; it then returns the empty table after one warning for every
    pair. *)
Theorem unknown_test_type_returns_iff_no_pair_has_data
    (data : DataFrame) (test_type : string) (log : list advisory) :
  NoDup (columns data) ->
  valid_test_type test_type = false ->
  (Forall (fun ij => sufficient data ij.1 ij.2 = false) (pairs (length data)) ->
   call ttest_ind mannwhitneyu data test_type log =
   (Ret [], World data
              (log ++ ((fun ij => skip_notice data ij.1 ij.2) <$> pairs (length data))))) /\
  (forall tbl w',
     call ttest_ind mannwhitneyu data test_type log = (Ret tbl, w') ->
     tbl = [] /\
     Forall (fun ij => sufficient data ij.1 ij.2 = false) (pairs (length data))).
Proof.
  intros Hnd Hv. split.
  - now apply call_unknown_test_no_data.
  - intros tbl w' Hcall.
    pose proof (call_unknown_test_returned _ _ _ _ _ Hnd Hv Hcall) as Hall.
    split; [|exact Hall].
    rewrite call_unknown_test_no_data in Hcall by assumption. now inversion Hcall.
Qed.

End UnknownTest.

Lemma unknown_test_type_returns_iff_no_pair_has_data_witness :
  call (Examples.stub_test Examples.p_0_01) (Examples.stub_test Float64.one)
    [("X", [Float64.of_Z 1]); ("Y", [Float64.of_Z 2; Examples.nan])] "anova" [] =
  (Ret [],
   World [("X", [Float64.of_Z 1]); ("Y", [Float64.of_Z 2; Examples.nan])]
     [st_warning_msg "Skipping X vs Y - not enough data points"]).
Proof.
  apply (proj1 (unknown_test_type_returns_iff_no_pair_has_data
                  (Examples.stub_test Examples.p_0_01) (Examples.stub_test Float64.one)
                  [("X", [Float64.of_Z 1]); ("Y", [Float64.of_Z 2; Examples.nan])]
                  "anova" [] ltac:(compute_done) eq_refl)).
  repeat constructor.
Defined.

(** ** Labels and missing cells do not change the numbers *)

Lemma sample_of_cleaned_cells (d1 d2 : DataFrame) :
  dropna <$> d1.*2 = dropna <$> d2.*2 ->
  length d1 = length d2 /\ forall i, sample d1 i = sample d2 i.
Proof.
  intros H. split.
  - apply (f_equal length) in H. now rewrite !length_fmap in H.
  - intros i. apply (f_equal (fun l => l !! i)) in H.
    rewrite !list_lookup_fmap in H. unfold sample. rewrite !list_lookup_fmap.
    destruct (d1 !! i) as [[c1 a]|], (d2 !! i) as [[c2 b]|]; simpl in *; congruence.
Qed.

Section Cleaned.

Variable ttest_ind : Series -> Series -> stat_result.
Variable mannwhitneyu : Series -> Series -> stat_result.

Lemma computed_in_of_samples (test_type : string) (d1 d2 : DataFrame)
    (ps : list (nat * nat)) :
  (forall i, sample d1 i = sample d2 i) ->
  computed_in ttest_ind mannwhitneyu test_type d1 ps =
  computed_in ttest_ind mannwhitneyu test_type d2 ps.
Proof.
  intros Hs. induction ps as [|[i j] ps IH]; [reflexivity|].
  rewrite !computed_in_cons, IH. unfold verdict_of, sufficient. rewrite !Hs.
  destruct (negb _); [|reflexivity].
  destruct (String.eqb test_type "ttest").
  - destruct (ttest_ind _ _); reflexivity.
  - destruct (String.eqb test_type "mannwhitney"); [|reflexivity].
    destruct (mannwhitneyu _ _); reflexivity.
Qed.

Lemma table_fields (test_type : string) (data : DataFrame) :
  p_value_field <$> table ttest_ind mannwhitneyu test_type data =
    (fun c => Format.format_10f c.2) <$> computed ttest_ind mannwhitneyu test_type data /\
  Significance <$> table ttest_ind mannwhitneyu test_type data =
    (fun c => significance_of c.2) <$> computed ttest_ind mannwhitneyu test_type data.
Proof.
  unfold table. rewrite <- !list_fmap_compose.
  split; apply list_fmap_ext; intros k [[i j] p] _; reflexivity.
Qed.

(** X4: the p-values and the flags of the table depend on the frame only
    through the cells that are not missing, column by column: a frame with
    other labels, or with missing cells added, removed or moved, gives a
    table with the same p-value and significance columns (and returns
    whenever the first one does). *)
Theorem table_depends_on_cleaned_cells_only
    (d1 d2 : DataFrame) (test_type : string) (log1 log2 : list advisory)
    (tbl1 : list row) (w1 : world) :
  NoDup (columns d1) -> NoDup (columns d2) ->
  dropna <$> d1.*2 = dropna <$> d2.*2 ->
  call ttest_ind mannwhitneyu d1 test_type log1 = (Ret tbl1, w1) ->
  exists tbl2 w2,
    call ttest_ind mannwhitneyu d2 test_type log2 = (Ret tbl2, w2) /\
    p_value_field <$> tbl1 = p_value_field <$> tbl2 /\
    Significance <$> tbl1 = Significance <$> tbl2.
Proof.
  intros Hnd1 Hnd2 Hcells Hcall.
  apply sample_of_cleaned_cells in Hcells as [Hlen Hs].
  destruct (valid_test_type test_type) eqn:Hv.
  - apply call_returns in Hcall as [-> _]; [|assumption].
    eexists _, _. split; [now apply call_known_test|].
    destruct (table_fields test_type d1) as [-> ->].
    destruct (table_fields test_type d2) as [-> ->].
    unfold computed. rewrite Hlen, (computed_in_of_samples test_type d1 d2 _ Hs).
    split; reflexivity.
  - pose proof (call_unknown_test_returned _ _ _ _ _ _ _ Hnd1 Hv Hcall) as Hall.
    rewrite call_unknown_test_no_data in Hcall by assumption. inversion Hcall; subst.
    eexists _, _. split; [|split; reflexivity].
    apply call_unknown_test_no_data; [assumption..|].
    rewrite <- Hlen. eapply Forall_impl; [exact Hall|].
    intros [i j]. unfold sufficient. now rewrite !Hs.
Qed.

End Cleaned.

Lemma table_depends_on_cleaned_cells_only_witness :
  exists tbl2 w2,
    call (Examples.stub_test Examples.p_0_01) (Examples.stub_test Float64.one)
      [("A", Examples.ints [1; 2; 3]); ("B", [Examples.nan; Float64.of_Z 4; Float64.of_Z 5])]
      "ttest" [] = (Ret tbl2, w2) /\
    p_value_field <$> [Row "Left vs Right" "0.0100000000" "sig"] = p_value_field <$> tbl2 /\
    Significance <$> [Row "Left vs Right" "0.0100000000" "sig"] = Significance <$> tbl2.
Proof.
  eapply (table_depends_on_cleaned_cells_only
            (Examples.stub_test Examples.p_0_01) (Examples.stub_test Float64.one)
            [("Left", (Examples.ints [1; 2] ++ [Examples.nan] ++ Examples.ints [3])%list);
             ("Right", Examples.ints [4; 5])]
            _ "ttest" [] []).
  - compute_done.
  - compute_done.
  - vm_compute. reflexivity.
  - vm_compute. reflexivity.
Defined.

(** ** The p-value shown and the p-value tested *)

Module DisplayFacts.

Import Format Parse.

Lemma ten_digits_denominator : Z.to_pos (10 ^ Z.of_nat 10) = 10000000000%positive.
Proof. vm_compute. reflexivity. Qed.

Lemma ten_to_ten : 10 ^ 10 = 10000000000.
Proof. vm_compute. reflexivity. Qed.

(** The number read back from the rendering of a p-value in [0,1] is the
    rounded count of units of the tenth decimal place over 10^10. *)
Lemma format_unit_value (p : float) :
  Float64.in_unit_interval p ->
  value (format_10f p) =
  Some (Qmake (match p with S754_finite _ m e => scaled m e | _ => 0 end) 10000000000).
Proof.
  intros (Hfin & Hlo & Hhi). destruct p as [s|s| |s m e]; try discriminate.
  - destruct s; vm_compute; reflexivity.
  - destruct s.
    + exfalso. exact (Qlt_not_le _ _ (Float64Facts.dyadic_negative m e) Hlo).
    + cbn [Float64.to_Q] in Hhi. apply FormatFacts.scaled_unit_interval in Hhi.
      cbn [format_10f sign_prefix]. set (n := scaled m e) in *.
      destruct (Z.eq_dec n (10 ^ 10)) as [Heq|Hne].
      * rewrite Heq. rewrite Z.div_same, Z.mod_same by lia.
        rewrite ten_to_ten. vm_compute. reflexivity.
      * assert (0 <= n < 10 ^ 10) as Hn by lia.
        rewrite Z.div_small, Z.mod_small by exact Hn. rewrite FormatFacts.decimal_0.
        pose proof (FormatFacts.fixed_digits_length 10 n) as Hlen.
        pose proof (FormatFacts.fixed_digits_all_digits 10 n) as Hdig.
        pose proof (FormatFacts.fixed_digits_value 10 n 0) as Hval.
        rewrite Z.mod_small in Hval by exact Hn.
        set (fd := fixed_digits 10 n) in *. clearbody fd.
        change (value ("0." +:+ fd) = Some (n # 10000000000)).
        rewrite FormatFacts.value_below_one, Hlen, Hval by exact Hdig.
        rewrite ten_digits_denominator. reflexivity.
Qed.

(** Rounding to the nearest integer is off by at most one half. *)
Lemma round_half_even_error (n d : Z) :
  0 <= n -> 0 < d ->
  - d <= 2 * (round_half_even n d * d - n) <= d.
Proof.
  intros Hn Hd. unfold round_half_even.
  pose proof (Z.div_mod n d ltac:(lia)) as Hdm.
  pose proof (Z.mod_pos_bound n d Hd) as Hr.
  destruct (Z.compare_spec (2 * (n mod d)) d) as [He|Hl|Hg];
    [destruct (Z.even (n / d))|..]; nia.
Qed.

Lemma round_half_even_at_least (n d k : Z) :
  0 <= n -> 0 < d -> k * d <= n -> k <= round_half_even n d.
Proof.
  intros Hn Hd Hk. pose proof (FormatFacts.round_half_even_bounds n d Hn Hd) as [Hlo _].
  assert (k <= n / d) by (apply Z.div_le_lower_bound; lia). lia.
Qed.

Lemma round_half_even_at_most (n d k : Z) :
  0 <= n -> 0 < d -> n < k * d -> round_half_even n d <= k.
Proof.
  intros Hn Hd Hk. pose proof (FormatFacts.round_half_even_bounds n d Hn Hd) as [_ Hhi].
  assert (n / d < k) by (apply Z.div_lt_upper_bound; lia). lia.
Qed.

End DisplayFacts.

Section Display.

Import Format Parse.

(** X5: the p-value field of a row is the raw p-value rounded to the
    nearest multiple of 10^-10: for a p-value in [0,1] the number it spells
    differs from the raw p-value by at most 5 * 10^-11. *)
Theorem shown_p_value_is_within_half_a_unit
    (data : DataFrame) (i j : nat) (p : float) :
  Float64.in_unit_interval p ->
  exists q : Q,
    value (p_value_field (row_of data (i, j, p))) = Some q /\
    (q - (1 # 20000000000) <= Float64.to_Q p)%Q /\
    (Float64.to_Q p <= q + (1 # 20000000000))%Q.
Proof.
  intros Hp. cbn [row_of p_value_field].
  rewrite (DisplayFacts.format_unit_value p Hp). eexists. split; [reflexivity|].
  destruct Hp as (Hfin & Hlo & Hhi). destruct p as [s|s| |s m e]; try discriminate.
  - split; discriminate.
  - destruct s; [exfalso; exact (Qlt_not_le _ _ (Float64Facts.dyadic_negative m e) Hlo)|].
    cbn [Float64.to_Q]. unfold scaled, Float64.dyadic.
    rewrite DisplayFacts.ten_to_ten.
    destruct e as [|k|k]; unfold Qle, Qminus, Qplus, Qopp, inject_Z; cbn [Qnum Qden].
    + rewrite Z.pow_0_r. split; lia.
    + assert (0 < 2 ^ Zpos k) by (apply Z.pow_pos_nonneg; lia).
      set (v := Zpos m * 2 ^ Zpos k) in *. split; lia.
    + rewrite !Pos2Z.inj_mul, !Pos2Z.inj_pow.
      assert (0 < 2 ^ Zpos k) as Hd by (apply Z.pow_pos_nonneg; lia).
      pose proof (DisplayFacts.round_half_even_error (Zpos m * 10000000000) (2 ^ Zpos k)
                    ltac:(lia) Hd) as Herr.
      set (n := round_half_even (Zpos m * 10000000000) (2 ^ Zpos k)) in *.
      set (d := 2 ^ Zpos k) in *. clearbody n d.
      split; nia.
Qed.

(** X6: the flag follows the number shown except at 0.05 itself.  For a
    binary64 p-value in [0,1], a field that spells a number below 0.05
    comes with "sig" and one that spells a number above 0.05 with "nonsig";
    the field "0.0500000000" comes with either flag, since the flag is
    decided on the raw p-value. *)
Theorem flag_follows_shown_p_value_except_at_threshold :
  (forall (data : DataFrame) (i j : nat) (p : float),
     Float64.is_binary64 p = true -> Float64.in_unit_interval p ->
     exists q : Q,
       value (p_value_field (row_of data (i, j, p))) = Some q /\
       ((q < 1 # 20)%Q -> Significance (row_of data (i, j, p)) = "sig") /\
       ((1 # 20 < q)%Q -> Significance (row_of data (i, j, p)) = "nonsig")) /\
  (exists p1 p2 : float,
     Float64.is_binary64 p1 = true /\ Float64.is_binary64 p2 = true /\
     format_10f p1 = "0.0500000000" /\ format_10f p2 = "0.0500000000" /\
     significance_of p1 = "sig" /\ significance_of p2 = "nonsig").
Proof.
  split.
  - intros data i j p Hb Hp. cbn [row_of p_value_field Significance].
    rewrite (DisplayFacts.format_unit_value p Hp). eexists. split; [reflexivity|].
    pose proof (Float64Facts.lt_0_05_below p Hb) as Hlt.
    unfold significance_of.
    destruct Hp as (Hfin & Hlo & Hhi). destruct p as [s|s| |s m e]; try discriminate.
    + cbn [Float64.below Float64.to_Q] in Hlt.
      assert (Float64.lt (S754_zero s) Float64.lit_0_05 = true) as -> by (now apply Hlt).
      split; [reflexivity | discriminate].
    + destruct s; [exfalso; exact (Qlt_not_le _ _ (Float64Facts.dyadic_negative m e) Hlo)|].
      cbn [Float64.below Float64.to_Q] in Hlt.
      destruct (Float64.lt (S754_finite false m e) Float64.lit_0_05) eqn:E.
      * split; [reflexivity|]. intros Hq. exfalso.
        assert (Float64.dyadic (Zpos m) e < 1 # 20)%Q as Hbelow by (now apply Hlt).
        revert Hq Hbelow. unfold scaled, Float64.dyadic. rewrite DisplayFacts.ten_to_ten.
        destruct e as [|k|k]; unfold Qlt, inject_Z; cbn [Qnum Qden].
        -- rewrite Z.pow_0_r. lia.
        -- assert (0 < 2 ^ Zpos k) by (apply Z.pow_pos_nonneg; lia).
           set (v := Zpos m * 2 ^ Zpos k) in *. lia.
        -- rewrite Pos2Z.inj_pow. intros Hq Hbelow.
           assert (0 < 2 ^ Zpos k) as Hd by (apply Z.pow_pos_nonneg; lia).
           pose proof (DisplayFacts.round_half_even_at_most (Zpos m * 10000000000)
                         (2 ^ Zpos k) 500000000 ltac:(lia) Hd ltac:(lia)).
           lia.
      * split; [|reflexivity]. intros Hq. exfalso.
        assert (~ (Float64.dyadic (Zpos m) e < 1 # 20)%Q) as Hnot
          by (intros Hb'; apply Hlt in Hb'; discriminate).
        apply Hnot. revert Hq. unfold scaled, Float64.dyadic.
        rewrite DisplayFacts.ten_to_ten.
        destruct e as [|k|k]; unfold Qlt, inject_Z; cbn [Qnum Qden].
        -- rewrite Z.pow_0_r. lia.
        -- assert (0 < 2 ^ Zpos k) by (apply Z.pow_pos_nonneg; lia).
           set (v := Zpos m * 2 ^ Zpos k) in *. lia.
        -- rewrite Pos2Z.inj_pow. intros Hq.
           assert (0 < 2 ^ Zpos k) as Hd by (apply Z.pow_pos_nonneg; lia).
           destruct (Z.lt_ge_cases (Zpos m * 20) (1 * 2 ^ Zpos k)) as [Hlt'|Hge];
             [exact Hlt'|exfalso].
           pose proof (DisplayFacts.round_half_even_at_least (Zpos m * 10000000000)
                         (2 ^ Zpos k) 500000000 ltac:(lia) Hd ltac:(lia)).
           lia.
  - exists (S754_finite false 7205759403792793 (-57)), Float64.lit_0_05.
    repeat split; vm_compute; reflexivity.
Qed.

End Display.

(** * Properties of the page script *)

Module PageFacts.

Import Page.

(** ** Dropping the empty columns *)






(** ** Renaming *)


(** X8: ticking "Rename all samples" replaces the labels, in order, by
    what the text inputs hold and leaves every cell where it is; inputs left
    at their initial content give the frame back unchanged. *)
Theorem renamed_changes_labels_only (u : session) (df : DataFrame) :
  (renamed u df).1.*2 = df.*2 /\
  columns (renamed u df).1 =
    (if rename_all u then typed u <$> columns df else columns df) /\
  ((forall col, col ∈ columns df -> typed u col = col) -> (renamed u df).1 = df).
Proof.
  unfold renamed, set_columns, columns. destruct (rename_all u); cbn [fst].
  - split; [|split].
    + apply snd_zip. rewrite !length_fmap. lia.
    + apply fst_zip. rewrite !length_fmap. lia.
    + intros Hsame. rewrite <- (zip_fst_snd df) at 3. f_equal.
      induction df as [|[c s] df IH]; simpl; [reflexivity|]. f_equal.
      * apply Hsame. simpl. apply list_elem_of_here.
      * apply IH. intros col Hcol. apply Hsame. simpl. now apply list_elem_of_further.
  - auto.
Qed.

(** ** The radio *)



End PageFacts.

(** ** What the script shows *)

Section ScriptFacts.

Import Page.

Variable ttest_ind : Series -> Series -> stat_result.
Variable mannwhitneyu : Series -> Series -> stat_result.





End ScriptFacts.

(** * The further properties on the example frames *)

Lemma p_0_01_in_unit_interval : Float64.in_unit_interval Examples.p_0_01.
Proof. split; [reflexivity|]. split; vm_compute; discriminate. Qed.

Lemma rows_and_messages_count_the_pairs_witness :
  exists shown : list advisory,
    page (World Examples.df
            [st_error_msg "Error in t-test between Sample1 and Sample2: unequal length arrays";
             st_error_msg "Error in t-test between Sample1 and Sample3: unequal length arrays"])
      = [] ++ shown /\
    (2 * (length [Row "Sample2 vs Sample3" "0.0100000000" "sig"] + length shown)
     = length Examples.df * (length Examples.df - 1))%nat.
Proof.
  apply (rows_and_messages_count_the_pairs
           (Examples.same_size_test Examples.p_0_01) (Examples.stub_test Float64.one)
           Examples.df "ttest" []).
  - exact df_labels_distinct.
  - vm_compute. reflexivity.
Defined.

Lemma shown_p_value_is_within_half_a_unit_witness :
  exists q : Q,
    Parse.value (p_value_field (row_of Examples.df (0, 1, Examples.p_0_01)%nat)) = Some q /\
    (q - (1 # 20000000000) <= Float64.to_Q Examples.p_0_01)%Q /\
    (Float64.to_Q Examples.p_0_01 <= q + (1 # 20000000000))%Q.
Proof.
  apply (shown_p_value_is_within_half_a_unit Examples.df 0 1 Examples.p_0_01).
  exact p_0_01_in_unit_interval.
Defined.

Lemma flag_follows_shown_p_value_except_at_threshold_witness :
  exists q : Q,
    Parse.value (p_value_field (row_of Examples.df (0, 1, Examples.p_0_01)%nat)) = Some q /\
    ((q < 1 # 20)%Q -> Significance (row_of Examples.df (0, 1, Examples.p_0_01)%nat) = "sig") /\
    ((1 # 20 < q)%Q -> Significance (row_of Examples.df (0, 1, Examples.p_0_01)%nat) = "nonsig").
Proof.
  apply (proj1 flag_follows_shown_p_value_except_at_threshold
           Examples.df 0%nat 1%nat Examples.p_0_01).
  - reflexivity.
  - exact p_0_01_in_unit_interval.
Defined.




(** * The complete table *)

Section Complete.

Variable ttest_ind : Series -> Series -> stat_result.
Variable mannwhitneyu : Series -> Series -> stat_result.

Lemma all_computed (test_type : string) (data : DataFrame) (ps : list (nat * nat)) :
  Forall (fun ij => exists p,
            verdict_of ttest_ind mannwhitneyu test_type data ij.1 ij.2 = Computed p) ps ->
  (computed_in ttest_ind mannwhitneyu test_type data ps).*1 = ps /\
  notices_in ttest_ind mannwhitneyu test_type data ps = [].
Proof.
  induction 1 as [|[i j] ps [p Hp] _ [IH1 IH2]]; [split; reflexivity|].
  rewrite computed_in_cons, notices_in_cons. simpl in Hp. rewrite Hp.
  split; [rewrite fmap_cons, IH1; reflexivity | exact IH2].
Qed.

(** X12: with 'ttest' or 'mannwhitney', when every column has two values
    or more that are not missing and the test raises on no pair, the call
    shows nothing and returns one row for every pair of columns, n(n-1)/2 in
    all, labelled "<name_i> vs <name_j>" in the order of the enumeration. *)
Theorem every_pair_has_a_row_when_all_are_computable
    (data : DataFrame) (test_type : string) (log : list advisory) :
  NoDup (columns data) ->
  valid_test_type test_type = true ->
  (forall i, (i < length data)%nat -> (2 <= length (sample data i))%nat) ->
  (forall i j, (i, j) ∈ pairs (length data) ->
               exists p, test_returned ttest_ind mannwhitneyu test_type data i j p) ->
  exists tbl,
    call ttest_ind mannwhitneyu data test_type log = (Ret tbl, World data log) /\
    Comparison <$> tbl =
      (fun ij => label data ij.1 +:+ " vs " +:+ label data ij.2) <$> pairs (length data) /\
    (2 * length tbl = length data * (length data - 1))%nat.
Proof.
  intros Hnd Hv Hsize Hret.
  assert (Forall (fun ij => exists p,
                    verdict_of ttest_ind mannwhitneyu test_type data ij.1 ij.2 = Computed p)
            (pairs (length data))) as Hall.
  { apply Forall_forall. intros [i j] Hin. pose proof Hin as Hb.
    apply elem_of_pairs in Hb. destruct (Hret i j Hin) as [p Hp].
    exists p. apply verdict_of_returned; [|exact Hp].
    unfold sufficient. apply negb_true_iff, orb_false_iff.
    split; apply Nat.ltb_ge, Hsize; simpl; lia. }
  apply all_computed in Hall as [Hc Hn].
  exists (table ttest_ind mannwhitneyu test_type data).
  rewrite call_known_test by assumption. unfold notices. rewrite Hn, app_nil_r.
  split; [reflexivity|]. unfold table, computed in *. split.
  - rewrite <- Hc at 2. rewrite <- !list_fmap_compose.
    apply list_fmap_ext. intros k [[i j] p] _. reflexivity.
  - rewrite length_fmap. rewrite <- (length_fmap fst), Hc. apply length_pairs.
Qed.

End Complete.

Lemma every_pair_has_a_row_when_all_are_computable_witness :
  exists tbl,
    call (Examples.stub_test Examples.p_0_01) (Examples.stub_test Float64.one)
      Examples.df "mannwhitney" [] = (Ret tbl, World Examples.df []) /\
    Comparison <$> tbl =
      (fun ij => label Examples.df ij.1 +:+ " vs " +:+ label Examples.df ij.2)
        <$> pairs (length Examples.df) /\
    (2 * length tbl = length Examples.df * (length Examples.df - 1))%nat.
Proof.
  apply (every_pair_has_a_row_when_all_are_computable
           (Examples.stub_test Examples.p_0_01) (Examples.stub_test Float64.one)
           Examples.df "mannwhitney" []).
  - exact df_labels_distinct.
  - reflexivity.
  - intros i Hi. assert (i = 0 \/ i = 1 \/ i = 2)%nat as [->|[->| ->]] by (simpl in Hi; lia);
      vm_compute; lia.
  - intros i j Hin. apply elem_of_pairs in Hin. exists Float64.one. right.
    split; [reflexivity|].
    assert ((i = 0 /\ j = 1) \/ (i = 0 /\ j = 2) \/ (i = 1 /\ j = 2))%nat
      as [[-> ->]|[[-> ->]|[-> ->]]] by (simpl in Hin; lia);
      vm_compute; reflexivity.
Defined.

(** * The p-value field of any float *)

Module FieldFacts.

Import Format Parse.

Lemma string_of_uint_all_digits (d : Decimal.uint) :
  all_digits (NilEmpty.string_of_uint d) = true.
Proof. induction d; simpl; auto. Qed.

Lemma decimal_all_digits (n : Z) : all_digits (decimal n) = true.
Proof. apply string_of_uint_all_digits. Qed.

Lemma decimal_starts_with_a_digit (n : Z) :
  exists c rest, decimal n = String c rest /\ is_digit c = true.
Proof.
  unfold decimal. pose proof (string_of_uint_all_digits (N.to_uint (Z.to_N n))) as Hd.
  assert (N.to_uint (Z.to_N n) <> Decimal.Nil) as Hnil.
  { destruct (Z.to_N n) as [|p]; [discriminate|]. apply DecimalPos.Unsigned.to_uint_nonnil. }
  destruct (N.to_uint (Z.to_N n)) as [|d|d|d|d|d|d|d|d|d|d]; [contradiction|..];
    eexists _, _; (split; [reflexivity|reflexivity]).
Qed.

Lemma digit_is_no_point (c : ascii) : is_digit c = true -> Ascii.eqb c "." = false.
Proof.
  intros H. destruct (Ascii.eqb_spec c "."%char) as [->|]; [discriminate H | reflexivity].
Qed.

Lemma split_point_after_digits (a rest : string) :
  all_digits a = true -> split_point (a +:+ String "." rest) = Some (a, rest).
Proof.
  induction a as [|c a IH]; intros H.
  - reflexivity.
  - cbn [all_digits] in H. apply andb_true_iff in H as [Hc Ha].
    change (String c a +:+ String "." rest) with (String c (a +:+ String "." rest)).
    cbn [split_point]. rewrite (digit_is_no_point c Hc), (IH Ha). reflexivity.
Qed.

Lemma strip_sign_digit (c : ascii) (rest : string) :
  is_digit c = true -> strip_sign (String c rest) = (false, String c rest).
Proof.
  intros H. destruct c as [[] [] [] [] [] [] [] []];
    vm_compute in H; try discriminate H; reflexivity.
Qed.

(** A sign, digits, a point and ten digits make a fixed-point decimal. *)
Lemma fixed_point_of_parts (s : bool) (ip fd : string) :
  (exists c rest, ip = String c rest /\ is_digit c = true) ->
  all_digits ip = true -> String.length fd = 10%nat -> all_digits fd = true ->
  fixed_point 10 (sign_prefix s +:+ ip +:+ "." +:+ fd) = true.
Proof.
  intros (c & rest & -> & Hc) Hip Hlen Hfd. unfold fixed_point.
  assert ((strip_sign (sign_prefix s +:+ String c rest +:+ "." +:+ fd)).2
          = String c rest +:+ String "." fd) as ->.
  { destruct s.
    - reflexivity.
    - change (sign_prefix false +:+ String c rest +:+ "." +:+ fd)
        with (String c (rest +:+ String "." fd)).
      now rewrite strip_sign_digit. }
  rewrite split_point_after_digits by exact Hip.
  rewrite Hip, Hlen, Hfd. reflexivity.
Qed.

End FieldFacts.

(** X13: the p-value field of a row is a fixed-point decimal with exactly
    ten digits after the point exactly when the p-value its test returned is
    finite, whatever its size and sign; a NaN or an infinity gives a field
    that is no number. *)
Theorem p_value_field_is_fixed_point_iff_finite (data : DataFrame) (i j : nat) (p : float) :
  Parse.fixed_point 10 (p_value_field (row_of data (i, j, p))) = Float64.is_finite p.
Proof.
  cbn [row_of p_value_field]. destruct p as [s|s| |s m e].
  - destruct s; reflexivity.
  - destruct s; reflexivity.
  - reflexivity.
  - cbn [Format.format_10f Float64.is_finite].
    apply FieldFacts.fixed_point_of_parts.
    + apply FieldFacts.decimal_starts_with_a_digit.
    + apply FieldFacts.decimal_all_digits.
    + apply FormatFacts.fixed_digits_length.
    + apply FormatFacts.fixed_digits_all_digits.
Qed.

(** * The messages of a call *)

Section Messages.

Variable ttest_ind : Series -> Series -> stat_result.
Variable mannwhitneyu : Series -> Series -> stat_result.

Lemma notices_in_follow (test_type : string) (data : DataFrame) (ps : list (nat * nat)) :
  exists ks : list (nat * nat),
    ks `sublist_of` ps /\
    Forall2 (fun a ij =>
               a = skip_notice data ij.1 ij.2 \/
               exists e, a = ttest_failure_notice data ij.1 ij.2 e \/
                         a = mannwhitney_failure_notice data ij.1 ij.2 e)
      (notices_in ttest_ind mannwhitneyu test_type data ps) ks /\
    Forall (fun ij => forall p,
              verdict_of ttest_ind mannwhitneyu test_type data ij.1 ij.2 <> Computed p) ks.
Proof.
  induction ps as [|[i j] ps (ks & Hsub & Hmsg & Hno)].
  - exists []. repeat split; constructor.
  - rewrite notices_in_cons.
    destruct (verdict_of ttest_ind mannwhitneyu test_type data i j) as [|notice|p|] eqn:E.
    + exists ((i, j) :: ks). split; [now apply sublist_skip|]. split.
      * constructor; [now left | exact Hmsg].
      * constructor; [|exact Hno]. intros p. simpl. rewrite E. discriminate.
    + exists ((i, j) :: ks). split; [now apply sublist_skip|]. split.
      * constructor; [|exact Hmsg]. right. revert E. unfold verdict_of.
        destruct (sufficient data i j); [|discriminate].
        destruct (String.eqb test_type "ttest").
        -- destruct (ttest_ind _ _) as [p|e]; [discriminate|].
           intros H. inversion H. exists e. now left.
        -- destruct (String.eqb test_type "mannwhitney"); [|discriminate].
           destruct (mannwhitneyu _ _) as [p|e]; [discriminate|].
           intros H. inversion H. exists e. now right.
      * constructor; [|exact Hno]. intros p. simpl. rewrite E. discriminate.
    + exists ks. split; [now apply sublist_cons|]. split; assumption.
    + exists ks. split; [now apply sublist_cons|]. split; assumption.
Qed.

(** X14: the messages a returning call adds to the page come in the order
    of the enumeration, one for each pair of a subsequence of the visited
    pairs; each is the warning or an error message for its own pair, named by
    the two labels, and none of these pairs has a row in the table. *)
Theorem messages_follow_the_enumeration
    (data : DataFrame) (test_type : string) (log : list advisory)
    (tbl : list row) (w' : world) :
  NoDup (columns data) ->
  call ttest_ind mannwhitneyu data test_type log = (Ret tbl, w') ->
  exists (shown : list advisory) (ks : list (nat * nat)),
    page w' = log ++ shown /\
    ks `sublist_of` pairs (length data) /\
    Forall2 (fun a ij =>
               a = skip_notice data ij.1 ij.2 \/
               exists e, a = ttest_failure_notice data ij.1 ij.2 e \/
                         a = mannwhitney_failure_notice data ij.1 ij.2 e) shown ks /\
    Forall (fun ij => forall p,
              (ij.1, ij.2, p) ∉ computed ttest_ind mannwhitneyu test_type data) ks.
Proof.
  intros Hnd Hcall. apply call_returns in Hcall as [_ ->]; [|assumption].
  destruct (notices_in_follow test_type data (pairs (length data)))
    as (ks & Hsub & Hmsg & Hno).
  exists (notices ttest_ind mannwhitneyu test_type data), ks.
  split; [reflexivity|]. split; [exact Hsub|]. split; [exact Hmsg|].
  eapply Forall_impl; [exact Hno|]. intros [i j] H p. apply not_computed, H.
Qed.

End Messages.

Lemma messages_follow_the_enumeration_witness :
  exists (shown : list advisory) (ks : list (nat * nat)),
    page (World Examples.sparse
            [st_warning_msg "Skipping X vs Y - not enough data points";
             st_warning_msg "Skipping Y vs Z - not enough data points"]) = [] ++ shown /\
    ks `sublist_of` pairs (length Examples.sparse) /\
    Forall2 (fun a ij =>
               a = skip_notice Examples.sparse ij.1 ij.2 \/
               exists e, a = ttest_failure_notice Examples.sparse ij.1 ij.2 e \/
                         a = mannwhitney_failure_notice Examples.sparse ij.1 ij.2 e) shown ks /\
    Forall (fun ij => forall p,
              (ij.1, ij.2, p) ∉
              computed (Examples.stub_test Examples.p_0_01) (Examples.stub_test Float64.one)
                "ttest" Examples.sparse) ks.
Proof.
  eapply (messages_follow_the_enumeration
            (Examples.stub_test Examples.p_0_01) (Examples.stub_test Float64.one)
            Examples.sparse "ttest" []).
  - exact sparse_labels_distinct.
  - vm_compute. reflexivity.
Defined.
